(** * forkai chat-interface: the model provider adapter and its HTTP surface

    A shallow embedding of [application/chat-interface/index.js]: the
    configuration read from [process.env], the two [ModelProvider]
    subclasses, [createProvider], the two Express handlers on [/] and
    [startServer].

    JavaScript values are untyped, so the embedding carries a [value] type
    with [undefined] and [null]; property reads on them throw a [TypeError]
    as they do in Node.  Strings are sequences of UTF-16 code units.
    Methods run in a small monad that threads the receiver object ([this],
    or the module-level [provider]), may throw, and records every call to
    an external collaborator and every console line in a trace. *)

From Stdlib Require Import ZArith NArith Ascii String List Bool Lia DecimalString.
From stdpp Require Import gmap strings list fin_maps.

Local Open Scope Z_scope.
Set Warnings "-register-all".

(* ------------------------------------------------------------------ *)
(** ** Strings *)

(** A JavaScript string: its UTF-16 code units. *)
Abbreviation jsstring := (list N).

(** A string literal of the source (all of them are ASCII). *)
Definition lit (s : string) : jsstring :=
  List.map N_of_ascii (list_ascii_of_string s).

(** [WhiteSpace] and [LineTerminator] of ECMAScript, the code units that
    [String.prototype.trim] strips. *)
Definition is_white_space (c : N) : bool :=
  ((c =? 0x09) || (c =? 0x0A) || (c =? 0x0B) || (c =? 0x0C) || (c =? 0x0D)
   || (c =? 0x20) || (c =? 0xA0) || (c =? 0x1680)
   || ((0x2000 <=? c) && (c <=? 0x200A))
   || (c =? 0x2028) || (c =? 0x2029) || (c =? 0x202F) || (c =? 0x205F)
   || (c =? 0x3000) || (c =? 0xFEFF))%N.

Fixpoint trimStart (s : jsstring) : jsstring :=
  match s with
  | c :: s' => if is_white_space c then trimStart s' else s
  | [] => []
  end.

Definition trimEnd (s : jsstring) : jsstring := rev (trimStart (rev s)).

(** [s.trim()] *)
Definition trim (s : jsstring) : jsstring := trimEnd (trimStart s).

(** [s.startsWith(p)] *)
Fixpoint startsWith (s p : jsstring) : bool :=
  match p, s with
  | [], _ => true
  | a :: p', b :: s' => (a =? b)%N && startsWith s' p'
  | _ :: _, [] => false
  end.

(** [a === b] on strings. *)
Definition str_eq (a b : jsstring) : bool := bool_decide (a = b).

(** A string made of white space only (the empty string included). *)
Definition blank (s : jsstring) : bool := forallb is_white_space s.

(* ------------------------------------------------------------------ *)
(** ** Values and errors *)

(** The values that reach this program: parsed JSON bodies, backend
    responses, and [undefined].  Numbers are kept as integers: the code
    only ever tests a number for truthiness, and a non-integer double is
    truthy like any non-zero integer. *)
Inductive value : Type :=
| VUndefined
| VNull
| VBool (b : bool)
| VNum (n : Z)
| VStr (s : jsstring)
| VArr (items : list value)
| VObj (fields : list (jsstring * value)).

(** What [throw] carries: an [Error] (or [TypeError]) with its message. *)
Inductive error : Type :=
| Error (message : jsstring)
| TypeError (message : jsstring).

(** [error.message] *)
Definition error_message (e : error) : jsstring :=
  match e with Error m | TypeError m => m end.

Inductive result (A : Type) : Type :=
| Ok (a : A)
| Throw (e : error).
Arguments Ok {A} a.
Arguments Throw {A} e.

(** [ToBoolean] *)
Definition truthy (v : value) : bool :=
  match v with
  | VUndefined | VNull => false
  | VBool b => b
  | VNum n => negb (n =? 0)
  | VStr s => match s with [] => false | _ => true end
  | VArr _ | VObj _ => true
  end.

(** Own-property lookup in an object literal or a parsed JSON object. *)
Fixpoint lookup_field (k : jsstring) (fields : list (jsstring * value)) : option value :=
  match fields with
  | [] => None
  | (k', v) :: rest => if str_eq k k' then Some v else lookup_field k rest
  end.

Definition type_name (v : value) : jsstring :=
  match v with VNull => lit "null" | _ => lit "undefined" end.

Definition cannot_read (v : value) (k : jsstring) : error :=
  TypeError (lit "Cannot read properties of " ++ type_name v
             ++ lit " (reading '" ++ k ++ lit "')").

(** [v.k] for the property names this program reads ([message],
    [response], [candidates], [content], [parts], [text]); none of them is
    inherited from a prototype, so a primitive or an array has none. *)
Definition prop (v : value) (k : jsstring) : result value :=
  match v with
  | VUndefined | VNull => Throw (cannot_read v k)
  | VObj fields => Ok (default VUndefined (lookup_field k fields))
  | VBool _ | VNum _ | VStr _ | VArr _ => Ok VUndefined
  end.

(** [v[0]] *)
Definition first (v : value) : result value :=
  match v with
  | VUndefined | VNull => Throw (cannot_read v (lit "0"))
  | VArr items => Ok (List.hd VUndefined items)
  | VStr s => Ok (match s with c :: _ => VStr [c] | [] => VUndefined end)
  | VObj fields => Ok (default VUndefined (lookup_field (lit "0") fields))
  | VBool _ | VNum _ => Ok VUndefined
  end.

(** [userMessage.trim()]: only a string has a [trim] method; a JSON value
    can hold no function, so on every other value the call throws. *)
Definition call_trim (v : value) : result value :=
  match v with
  | VStr s => Ok (VStr (trim s))
  | VUndefined | VNull => Throw (cannot_read v (lit "trim"))
  | VBool _ | VNum _ | VArr _ | VObj _ =>
      Throw (TypeError (lit "userMessage.trim is not a function"))
  end.

(* ------------------------------------------------------------------ *)
(** ** Collaborators, the trace, and the method monad *)

(** The handle [vertexAI.getGenerativeModel({ model })] returns, for the
    client built by [new VertexAI({ project, location })]. *)
Record vertex_model : Type := VertexModel {
  vm_project : jsstring;
  vm_location : jsstring;
  vm_model : jsstring;
}.

(** The handle [genAI.getGenerativeModel({ model })] returns, for the
    client built by [new GoogleGenerativeAI(apiKey)]. *)
Record studio_model : Type := StudioModel {
  sm_apiKey : jsstring;
  sm_model : jsstring;
}.

(** The AI Studio SDK's result: [result.response.text()] returns the text
    or throws. *)
Record studio_result : Type := StudioResult {
  response_text : result jsstring;
}.

(** The remote services and the libraries that can refuse, as
    deterministic stubs: each call resolves with a value or rejects with
    an error.  The secret store resolves with
    [version.payload.data.toString('utf8')].  The Vertex SDK, given the
    project, the location and the model name, hands out a model handle or
    throws (a model name it does not accept).  [app.listen], given the
    port and the host, binds or throws (a port out of range, an address
    in use). *)
Record collaborators : Type := Collaborators {
  accessSecretVersion : jsstring -> result jsstring;
  vertex_getGenerativeModel : jsstring -> jsstring -> jsstring -> result vertex_model;
  vertex_generateContent : vertex_model -> value -> result value;
  studio_generateContent : studio_model -> value -> result studio_result;
  listen : value -> jsstring -> result unit;
}.

(** What the process does to the outside world. *)
Inductive event : Type :=
| ConsoleLog (text : jsstring)
| ConsoleError (label : jsstring) (e : error)
| SecretAccess (name : jsstring)
| VertexGenerate (m : vertex_model) (request : value)
| StudioGenerate (m : studio_model) (prompt : value)
| Listen (port : value) (host : jsstring).

(** A call to a model backend. *)
Definition is_generate (ev : event) : bool :=
  match ev with
  | VertexGenerate _ _ | StudioGenerate _ _ => true
  | _ => false
  end.

(** A computation over a mutable object of type [S]: it returns or
    throws, leaves the object in some state, and emits events. *)
Definition M (S A : Type) : Type := S -> result A * S * list event.

Definition ret {S A} (a : A) : M S A := fun s => (Ok a, s, []).

Definition throw {S A} (e : error) : M S A := fun s => (Throw e, s, []).

Definition bind {S A B} (m : M S A) (k : A -> M S B) : M S B :=
  fun s =>
    match m s with
    | (Ok a, s1, t1) =>
        match k a s1 with (r, s2, t2) => (r, s2, t1 ++ t2) end
    | (Throw e, s1, t1) => (Throw e, s1, t1)
    end.

Declare Scope js_scope.
Delimit Scope js_scope with js.
Notation "'let!' x ':=' m 'in' k" := (bind m (fun x => k))
  (at level 10, x name, m at level 100, k at level 200) : js_scope.
Notation "m ';!' k" := (bind m (fun _ => k))
  (at level 100, k at level 200, right associativity) : js_scope.
Local Open Scope js_scope.

(** [this] *)
Definition this {S} : M S S := fun s => (Ok s, s, []).

(** An assignment to fields of [this]. *)
Definition assign {S} (f : S -> S) : M S unit := fun s => (Ok tt, f s, []).

Definition emit {S} (ev : event) : M S unit := fun s => (Ok tt, s, [ev]).

(** A synchronous expression that may throw. *)
Definition eval {S A} (r : result A) : M S A := fun s => (r, s, []).

(** [await] of a call to a collaborator: the call is made, then its
    promise resolves or rejects. *)
Definition await {S A} (call : event) (r : result A) : M S A :=
  emit call ;! eval r.

(** [try { m } catch (error) { h error }] *)
Definition try_catch {S A} (m : M S A) (h : error -> M S A) : M S A :=
  fun s =>
    match m s with
    | (Ok a, s1, t1) => (Ok a, s1, t1)
    | (Throw e, s1, t1) =>
        match h e s1 with (r, s2, t2) => (r, s2, t1 ++ t2) end
    end.

(* ------------------------------------------------------------------ *)
(** ** Configuration (lines 8-18) *)

(** [a || b] on two environment reads: [a] when it is a non-empty
    string, [b] (whatever it is) otherwise. *)
Definition or_else (a b : option jsstring) : option jsstring :=
  match a with
  | Some (_ :: _) => a
  | _ => b
  end.

(** [a || 'literal'] *)
Definition or_default (a : option jsstring) (d : jsstring) : jsstring :=
  match a with
  | Some (c :: s) => c :: s
  | _ => d
  end.

(** [!x] for a value that is a string or [undefined]. *)
Definition falsy (a : option jsstring) : bool :=
  match a with
  | Some (_ :: _) => false
  | _ => true
  end.

(** [`${x}`] for a value that is a string or [undefined]. *)
Definition template (a : option jsstring) : jsstring :=
  match a with
  | Some s => s
  | None => lit "undefined"
  end.

Definition GOOGLE_VERTEXAI : jsstring := lit "google-vertexai".
Definition GOOGLE_AI_STUDIO : jsstring := lit "google-ai-studio".

Record config : Type := Config {
  port : value;
  modelName : jsstring;
  project : option jsstring;
  location : jsstring;
  modelProvider : jsstring;
  googleAIStudioApiSecret : jsstring;
  corsOrigin : jsstring;
}.

(** The module-level constants, read from [process.env]. *)
Definition load_config (env : gmap string jsstring) : config :=
  {| port := match env !! "PORT"%string with
             | Some (c :: s) => VStr (c :: s)
             | _ => VNum 8080
             end;
     modelName := or_default (env !! "MODEL_NAME"%string) (lit "gemini-2.0-flash-lite");
     project := or_else (env !! "GOOGLE_CLOUD_PROJECT"%string) (env !! "GCP_PROJECT"%string);
     location := or_default (or_else (env !! "GOOGLE_CLOUD_REGION"%string)
                                     (env !! "GCP_REGION"%string))
                            (lit "us-central1");
     modelProvider := or_default (env !! "MODEL_PROVIDER"%string) GOOGLE_AI_STUDIO;
     googleAIStudioApiSecret :=
       or_default (env !! "GOOGLE_AI_STUDIO_API_SECRET"%string) (lit "gemini-api-key-secret");
     corsOrigin := or_default (env !! "CORS_ALLOWED_ORIGIN"%string) (lit "*") |}.

(* ------------------------------------------------------------------ *)
(** ** The provider classes (lines 20-91) *)

(** The interface of [class ModelProvider]: two methods on [this]. *)
Class ModelProvider (P : Type) : Type := {
  init : M P unit;
  generateContent : value -> M P value;
}.

(** The base class itself: both methods throw. *)
Definition not_implemented {S A} : M S A := throw (Error (lit "Not implemented")).

#[local] Instance base_ModelProvider : ModelProvider unit :=
  {| init := not_implemented; generateContent := fun _ => not_implemented |}.

Record VertexAIProvider : Type := MkVertexAIProvider {
  v_modelName : jsstring;
  v_project : option jsstring;
  v_location : jsstring;
  v_model : option vertex_model;
}.

Record GoogleAIStudioProvider : Type := MkGoogleAIStudioProvider {
  s_modelName : jsstring;
  s_project : option jsstring;
  s_secretName : jsstring;
  s_model : option studio_model;
}.

(** [new VertexAIProvider({ modelName, project, location })] *)
Definition new_VertexAIProvider (modelName : jsstring) (project : option jsstring)
    (location : jsstring) : VertexAIProvider :=
  MkVertexAIProvider modelName project location None.

(** [new GoogleAIStudioProvider({ modelName, project, secretName })] *)
Definition new_GoogleAIStudioProvider (modelName : jsstring) (project : option jsstring)
    (secretName : jsstring) : GoogleAIStudioProvider :=
  MkGoogleAIStudioProvider modelName project secretName None.

(** The [secretVersion] constant of [GoogleAIStudioProvider.init]. *)
Definition secretVersion (self : GoogleAIStudioProvider) : jsstring :=
  if startsWith (s_secretName self) (lit "projects/")
  then s_secretName self ++ lit "/versions/latest"
  else lit "projects/" ++ template (s_project self) ++ lit "/secrets/"
       ++ s_secretName self ++ lit "/versions/latest".

(** The argument of [this.model.generateContent] on the Vertex variant. *)
Definition vertex_request (userMessage : value) : value :=
  VObj [(lit "contents",
         VArr [VObj [(lit "role", VStr (lit "user"));
                     (lit "parts", VArr [VObj [(lit "text", userMessage)]])]])].

(** [this.model.generateContent] when [this.model] is still [null]. *)
Definition null_model : error :=
  cannot_read VNull (lit "generateContent").

(** The object held by the module-level [provider]: an instance of one of
    the two subclasses. *)
Inductive provider : Type :=
| Vertex (self : VertexAIProvider)
| AIStudio (self : GoogleAIStudioProvider).

(** [req]: the body left by [express.json()]. *)
Record request : Type := Request {
  req_body : value;
}.

(** [res.status(status).json(body)] *)
Record response : Type := Response {
  status : Z;
  body : value;
}.

Inductive verb : Type := GET | POST.

(** The Node process: killed by an exception nobody caught, ended by
    [process.exit], or listening with its provider object. *)
Inductive process : Type :=
| Uncaught (e : error)
| Exited (code : Z)
| Listening (on : value) (host : jsstring) (p : provider).

(** A string or [undefined] as a value. *)
Definition of_optional (a : option jsstring) : value :=
  match a with
  | Some s => VStr s
  | None => VUndefined
  end.

(** [`${port}`]: the port is the [PORT] string or the number 8080. *)
Definition port_text (v : value) : jsstring :=
  match v with
  | VStr s => s
  | VNum n => lit (NilZero.string_of_int (Z.to_int n))
  | _ => []
  end.

Section Adapter.

Variable B : collaborators.

Definition VertexAIProvider_init : M VertexAIProvider unit :=
  let! self := this in
  if falsy (v_project self) then
    throw (Error (lit "GOOGLE_CLOUD_PROJECT environment variable is required for Vertex AI"))
  else
    let! model := eval (vertex_getGenerativeModel B (template (v_project self))
                          (v_location self) (v_modelName self)) in
    assign (fun s =>
      MkVertexAIProvider (v_modelName s) (v_project s) (v_location s) (Some model)).

Definition VertexAIProvider_generateContent (userMessage : value)
    : M VertexAIProvider value :=
  let! self := this in
  let! model := eval (match v_model self with
                      | Some m => Ok m
                      | None => Throw null_model
                      end) in
  let! result := await (VertexGenerate model (vertex_request userMessage))
                       (vertex_generateContent B model (vertex_request userMessage)) in
  let! response := eval (prop result (lit "response")) in
  let! candidates := eval (prop response (lit "candidates")) in
  let! candidate := eval (first candidates) in
  let! content := eval (prop candidate (lit "content")) in
  let! parts := eval (prop content (lit "parts")) in
  let! part := eval (first parts) in
  eval (prop part (lit "text")).

Definition GoogleAIStudioProvider_init : M GoogleAIStudioProvider unit :=
  let! self := this in
  if falsy (Some (s_secretName self)) then
    throw (Error (lit "GOOGLE_AI_STUDIO_API_SECRET environment variable is required for Google AI Studio"))
  else if falsy (s_project self) && negb (startsWith (s_secretName self) (lit "projects/")) then
    throw (Error (lit "GOOGLE_CLOUD_PROJECT environment variable is required to resolve Secret Manager secrets"))
  else
    let! payload := await (SecretAccess (secretVersion self))
                          (accessSecretVersion B (secretVersion self)) in
    let apiKey := trim payload in
    assign (fun s =>
      MkGoogleAIStudioProvider (s_modelName s) (s_project s) (s_secretName s)
        (Some (StudioModel apiKey (s_modelName self)))).

Definition GoogleAIStudioProvider_generateContent (userMessage : value)
    : M GoogleAIStudioProvider value :=
  let! self := this in
  let! model := eval (match s_model self with
                      | Some m => Ok m
                      | None => Throw null_model
                      end) in
  let! result := await (StudioGenerate model userMessage)
                       (studio_generateContent B model userMessage) in
  let! text := eval (response_text result) in
  ret (VStr text).

#[local] Instance VertexAIProvider_ModelProvider : ModelProvider VertexAIProvider :=
  {| init := VertexAIProvider_init;
     generateContent := VertexAIProvider_generateContent |}.

#[local] Instance GoogleAIStudioProvider_ModelProvider
    : ModelProvider GoogleAIStudioProvider :=
  {| init := GoogleAIStudioProvider_init;
     generateContent := GoogleAIStudioProvider_generateContent |}.

(** A method call on an instance of a subclass, seen from the holder of
    the object. *)
Definition method {P A} (wrap : P -> provider) (m : M P A) (self : P)
    : result A * provider * list event :=
  match m self with (r, self', t) => (r, wrap self', t) end.

(** Dynamic dispatch of [provider.init()] and
    [provider.generateContent(m)]. *)
#[local] Instance provider_ModelProvider : ModelProvider provider :=
  {| init := fun p =>
       match p with
       | Vertex self => method Vertex init self
       | AIStudio self => method AIStudio init self
       end;
     generateContent := fun userMessage p =>
       match p with
       | Vertex self => method Vertex (generateContent userMessage) self
       | AIStudio self => method AIStudio (generateContent userMessage) self
       end |}.

(** ** Selection, handlers and startup (lines 93-169) *)

Variable cfg : config.

Definition createProvider : M unit provider :=
  if str_eq (modelProvider cfg) GOOGLE_VERTEXAI then
    emit (ConsoleLog (lit "Using Vertex AI with model: " ++ modelName cfg
                      ++ lit " (service account authentication)")) ;!
    ret (Vertex (new_VertexAIProvider (modelName cfg) (project cfg) (location cfg)))
  else if str_eq (modelProvider cfg) GOOGLE_AI_STUDIO then
    emit (ConsoleLog (lit "Using Google AI Studio with model: " ++ modelName cfg
                      ++ lit " (API key authentication)")) ;!
    ret (AIStudio (new_GoogleAIStudioProvider (modelName cfg) (project cfg)
                     (googleAIStudioApiSecret cfg)))
  else
    throw (Error (lit "Invalid model provider: " ++ modelProvider cfg)).

(** [app.get('/')] *)
Definition get_handler (req : request) : M provider response :=
  ret (Response 200
         (VObj [(lit "message", VStr (lit "Health check successful"));
                (lit "request", req_body req)])).

(** The [debug] object of a successful reply. *)
Definition debug : value :=
  VObj [(lit "MODEL_NAME", VStr (modelName cfg));
        (lit "project", of_optional (project cfg));
        (lit "location", VStr (location cfg));
        (lit "modelProvider", VStr (modelProvider cfg))].

(** [!userMessage || !userMessage.trim()] *)
Definition message_missing (userMessage : value) : result bool :=
  if truthy userMessage then
    match call_trim userMessage with
    | Ok trimmed => Ok (negb (truthy trimmed))
    | Throw e => Throw e
    end
  else Ok true.

(** [app.post('/')] *)
Definition post_handler (req : request) : M provider response :=
  try_catch
    (let jsonPayload := req_body req in
     let! userMessage := eval (prop jsonPayload (lit "message")) in
     let! missing := eval (message_missing userMessage) in
     if missing then
       ret (Response 400 (VObj [(lit "error", VStr (lit "Message is required"))]))
     else
       let! responseText := generateContent userMessage in
       ret (Response 200
              (VObj [(lit "reply", responseText);
                     (lit "request", jsonPayload);
                     (lit "debug", debug)])))
    (fun error =>
       emit (ConsoleError (lit "Error generating content:") error) ;!
       ret (Response 500
              (VObj [(lit "error", VStr (lit "Error generating content"));
                     (lit "details", VStr (error_message error))]))).

(** The two routes on [/]. *)
Definition route (v : verb) (req : request) : M provider response :=
  match v with
  | GET => get_handler req
  | POST => post_handler req
  end.

(** The listening server answering a sequence of requests, one after the
    other, on the same provider object. *)
Fixpoint serve (reqs : list (verb * request)) (p : provider)
    : list (result response) * provider * list event :=
  match reqs with
  | [] => ([], p, [])
  | (v, req) :: rest =>
      match route v req p with
      | (r, p1, t1) =>
          match serve rest p1 with
          | (rs, p2, t2) => (r :: rs, p2, t1 ++ t2)
          end
      end
  end.

(** [startServer]: a failed [init] ends the process with status 1 before
    [app.listen] is reached.  When [app.listen] itself throws, nobody
    catches the error: the process dies without listening and the
    callback is never run. *)
Definition startServer (p : provider) : process * list event :=
  match init p with
  | (Throw e, _, t) =>
      (Exited 1,
       t ++ [ConsoleError (lit "Error: Failed to initialize model provider:") e])
  | (Ok _, p', t) =>
      match listen B (port cfg) (lit "0.0.0.0") with
      | Ok _ =>
          (Listening (port cfg) (lit "0.0.0.0") p',
           t ++ [Listen (port cfg) (lit "0.0.0.0");
                 ConsoleLog (lit "Server is running on http://0.0.0.0:"
                             ++ port_text (port cfg))])
      | Throw e => (Uncaught e, t ++ [Listen (port cfg) (lit "0.0.0.0")])
      end
  end.

(** The module body from [createProvider()] on line 111 to
    [startServer()] on line 169: an exception thrown by [createProvider]
    is caught by nobody. *)
Definition main : process * list event :=
  match createProvider tt with
  | (Throw e, _, t) => (Uncaught e, t)
  | (Ok p, _, t) =>
      match startServer p with (st, t') => (st, t ++ t') end
  end.

(** The process has bound its listening port. *)
Definition bound (st : process) : bool :=
  match st with
  | Listening _ _ _ => true
  | _ => false
  end.

End Adapter.

(** The whole program on an environment. *)
Definition run (B : collaborators) (env : gmap string jsstring) : process * list event :=
  main B (load_config env).

(* ------------------------------------------------------------------ *)
(** ** Vocabulary of the statements *)

(** A computation that assigns to no field of its object. *)
Definition read_only {S A} (m : M S A) : Prop :=
  forall s, snd (fst (m s)) = s.

(** The 400 reply. *)
Definition message_required : response :=
  Response 400 (VObj [(lit "error", VStr (lit "Message is required"))]).

(** The 500 reply for a caught [error]. *)
Definition generation_error (e : error) : response :=
  Response 500 (VObj [(lit "error", VStr (lit "Error generating content"));
                      (lit "details", VStr (error_message e))]).

(** [init] of the AI Studio variant got as far as the secret store, asked
    it for [path] and for nothing else, and failed only if the store did. *)
Definition resolves_to (B : collaborators) (self : GoogleAIStudioProvider)
    (path : jsstring) : Prop :=
  secretVersion self = path
  /\ snd (GoogleAIStudioProvider_init B self) = [SecretAccess path]
  /\ fst (fst (GoogleAIStudioProvider_init B self)) =
     match accessSecretVersion B path with
     | Ok _ => Ok tt
     | Throw e => Throw e
     end.

(** The provider object has been through a successful [init]:
    [this.model] is no longer [null]. *)
Definition initialised (p : provider) : bool :=
  match p with
  | Vertex self => match v_model self with Some _ => true | None => false end
  | AIStudio self => match s_model self with Some _ => true | None => false end
  end.

(** The [MODEL_PROVIDERS] constant that selects the class of the object. *)
Definition kind (p : provider) : jsstring :=
  match p with
  | Vertex _ => GOOGLE_VERTEXAI
  | AIStudio _ => GOOGLE_AI_STUDIO
  end.

(** The object with [this.model] put back to [null]: what the
    constructor stored. *)
Definition constructed (p : provider) : provider :=
  match p with
  | Vertex self =>
      Vertex (new_VertexAIProvider (v_modelName self) (v_project self) (v_location self))
  | AIStudio self =>
      AIStudio (new_GoogleAIStudioProvider (s_modelName self) (s_project self)
                  (s_secretName self))
  end.

(** The backend call [provider.generateContent(m)] makes on an
    initialised object. *)
Definition backend_call (p : provider) (m : value) : list event :=
  match p with
  | Vertex self =>
      match v_model self with
      | Some model => [VertexGenerate model (vertex_request m)]
      | None => []
      end
  | AIStudio self =>
      match s_model self with
      | Some model => [StudioGenerate model m]
      | None => []
      end
  end.

Definition is_listen (ev : event) : bool :=
  match ev with
  | Listen _ _ => true
  | _ => false
  end.

Definition is_ok {A} (r : result A) : bool :=
  match r with
  | Ok _ => true
  | Throw _ => false
  end.

(** The number of model backend calls in a trace. *)
Definition generate_calls (t : list event) : nat :=
  length (List.filter is_generate t).

(** The message of a JSON object body, [undefined] when absent. *)
Definition message_of (fields : list (jsstring * value)) : value :=
  default VUndefined (lookup_field (lit "message") fields).

(** The 200 reply. *)
Definition reply_ok (cfg : config) (reply body : value) : response :=
  Response 200
    (VObj [(lit "reply", reply); (lit "request", body); (lit "debug", debug cfg)]).

(** The three errors [init] throws by itself, and the label
    [startServer] prints before the error that stopped it. *)
Definition vertex_needs_project : error :=
  Error (lit "GOOGLE_CLOUD_PROJECT environment variable is required for Vertex AI").

Definition secret_name_required : error :=
  Error (lit "GOOGLE_AI_STUDIO_API_SECRET environment variable is required for Google AI Studio").

Definition secret_needs_project : error :=
  Error (lit "GOOGLE_CLOUD_PROJECT environment variable is required to resolve Secret Manager secrets").

Definition init_failed : jsstring := lit "Error: Failed to initialize model provider:".

(** The two lines [createProvider] prints, and the one [app.listen]'s
    callback prints. *)
Definition using_vertex (cfg : config) : event :=
  ConsoleLog (lit "Using Vertex AI with model: " ++ modelName cfg
              ++ lit " (service account authentication)").

Definition using_studio (cfg : config) : event :=
  ConsoleLog (lit "Using Google AI Studio with model: " ++ modelName cfg
              ++ lit " (API key authentication)").

Definition listening_events (cfg : config) : list event :=
  [Listen (port cfg) (lit "0.0.0.0");
   ConsoleLog (lit "Server is running on http://0.0.0.0:" ++ port_text (port cfg))].

(** The AI Studio object [createProvider] builds from the configuration. *)
Definition studio_of (cfg : config) : GoogleAIStudioProvider :=
  new_GoogleAIStudioProvider (modelName cfg) (project cfg) (googleAIStudioApiSecret cfg).

(** What [console.error] prints in the POST handler's [catch]. *)
Definition caught (e : error) : event :=
  ConsoleError (lit "Error generating content:") e.

(* ------------------------------------------------------------------ *)
(** ** Test doubles *)

(** A well-formed Vertex response whose first part carries [part]. *)
Definition vertex_response (part : value) : value :=
  VObj [(lit "response",
         VObj [(lit "candidates",
                VArr [VObj [(lit "content",
                             VObj [(lit "role", VStr (lit "model"));
                                   (lit "parts", VArr [part])])]])])].

(** Every service answers. *)
Definition answering : collaborators :=
  {| accessSecretVersion := fun _ => Ok (lit "  key-123 ");
     vertex_getGenerativeModel := fun project location model =>
       Ok (VertexModel project location model);
     vertex_generateContent := fun _ _ =>
       Ok (vertex_response (VObj [(lit "text", VStr (lit "Hello"))]));
     studio_generateContent := fun _ _ => Ok (StudioResult (Ok (lit "Hello")));
     listen := fun _ _ => Ok tt |}.

(** The Vertex backend answers with a function call instead of text. *)
Definition textless : collaborators :=
  {| accessSecretVersion := fun _ => Ok (lit "key-123");
     vertex_getGenerativeModel := vertex_getGenerativeModel answering;
     vertex_generateContent := fun _ _ =>
       Ok (vertex_response
             (VObj [(lit "functionCall", VObj [(lit "name", VStr (lit "lookup"))])]));
     studio_generateContent := fun _ _ => Ok (StudioResult (Ok (lit "Hello")));
     listen := listen answering |}.

(** The Vertex backend answers with no candidate. *)
Definition no_candidates : collaborators :=
  {| accessSecretVersion := fun _ => Ok (lit "key-123");
     vertex_getGenerativeModel := vertex_getGenerativeModel answering;
     vertex_generateContent := fun _ _ =>
       Ok (VObj [(lit "response", VObj [(lit "candidates", VArr [])])]);
     studio_generateContent := fun _ _ => Ok (StudioResult (Ok (lit "Hello")));
     listen := listen answering |}.

(** Both model backends reject every call. *)
Definition failing : collaborators :=
  {| accessSecretVersion := fun _ => Ok (lit "key-123");
     vertex_getGenerativeModel := vertex_getGenerativeModel answering;
     vertex_generateContent := fun _ _ => Throw (Error (lit "quota exceeded"));
     studio_generateContent := fun _ _ => Throw (Error (lit "quota exceeded"));
     listen := listen answering |}.

Definition sample_config : config :=
  load_config {[ "GOOGLE_CLOUD_PROJECT"%string := lit "proj-1";
                 "MODEL_PROVIDER"%string := lit "google-vertexai" ]}.

(** An initialised Vertex provider object. *)
Definition sample_vertex_model : vertex_model :=
  VertexModel (lit "proj-1") (lit "us-central1") (lit "gemini-2.0-flash-lite").

Definition sample_vertex_self : VertexAIProvider :=
  MkVertexAIProvider (lit "gemini-2.0-flash-lite") (Some (lit "proj-1"))
    (lit "us-central1") (Some sample_vertex_model).

Definition sample_vertex : provider := Vertex sample_vertex_self.

(** [POST / { "message": "hi" }] and the backend call it leads to. *)
Definition hi_fields : list (jsstring * value) := [(lit "message", VStr (lit "hi"))].

Definition hi_call : event :=
  VertexGenerate sample_vertex_model (vertex_request (VStr (lit "hi"))).

Definition quota_exceeded : error := Error (lit "quota exceeded").

(** Three environments: nothing set; an unknown provider kind; the
    Vertex variant with no project. *)
Definition env_empty : gmap string jsstring := ∅.

Definition env_openai : gmap string jsstring :=
  {[ "MODEL_PROVIDER"%string := lit "openai" ]}.

Definition env_vertex_only : gmap string jsstring :=
  {[ "MODEL_PROVIDER"%string := lit "google-vertexai" ]}.

(** An initialised AI Studio provider object. *)
Definition sample_studio : provider :=
  AIStudio (MkGoogleAIStudioProvider (lit "gemini-2.0-flash-lite") (Some (lit "proj-1"))
              (lit "gemini-api-key-secret")
              (Some (StudioModel (lit "key-123") (lit "gemini-2.0-flash-lite")))).

(** The model backends answer, the secret store rejects. *)
Definition denied : error := Error (lit "7 PERMISSION_DENIED").

Definition locked_store : collaborators :=
  {| accessSecretVersion := fun _ => Throw denied;
     vertex_getGenerativeModel := vertex_getGenerativeModel answering;
     vertex_generateContent := vertex_generateContent answering;
     studio_generateContent := studio_generateContent answering;
     listen := listen answering |}.

(** Every service answers, but [app.listen] throws: the port is out of
    range. *)
Definition bad_port : error :=
  Error (lit "options.port should be >= 0 and < 65536. Received type number (99999).").

Definition unbindable : collaborators :=
  {| accessSecretVersion := accessSecretVersion answering;
     vertex_getGenerativeModel := vertex_getGenerativeModel answering;
     vertex_generateContent := vertex_generateContent answering;
     studio_generateContent := studio_generateContent answering;
     listen := fun _ _ => Throw bad_port |}.

(** Every service answers, but the Vertex SDK refuses the model name. *)
Definition bad_model : error :=
  Error (lit "[VertexAI.ClientError]: model parameter is not supported").

Definition refusing_sdk : collaborators :=
  {| accessSecretVersion := accessSecretVersion answering;
     vertex_getGenerativeModel := fun _ _ _ => Throw bad_model;
     vertex_generateContent := vertex_generateContent answering;
     studio_generateContent := studio_generateContent answering;
     listen := listen answering |}.

(** The AI Studio variant with a project, and the Vertex variant with
    one. *)
Definition env_studio : gmap string jsstring :=
  {[ "GOOGLE_CLOUD_PROJECT"%string := lit "proj-1" ]}.

Definition env_vertex : gmap string jsstring :=
  {[ "MODEL_PROVIDER"%string := lit "google-vertexai";
     "GCP_PROJECT"%string := lit "proj-1" ]}.

Definition sample_studio_model : studio_model :=
  StudioModel (lit "key-123") (lit "gemini-2.0-flash-lite").

(* ------------------------------------------------------------------ *)
(** ** The web component that calls the service
       ([application/test-application/web-component/ai-chat-interface.js]) *)

(** The [AIChatInterface] custom element, as far as its data flow goes:
    the [data] property, the two button handlers, [fetchChatResponse] and
    [renderMarkdown].  The browser is a collaborator: [fetch] resolves
    with a response or rejects, [JSON.stringify] turns the parsed reply
    into text, and the chain of regular-expression replacements of
    [renderMarkdown] is some function from strings to strings.  Building
    the shadow DOM ([render], [attachEventListeners]) is not modelled; the
    element of class [ai-chat-response] is there or not. *)
Module WebComponent.

(** What [fetch] resolves with: [response.ok], [response.status] and the
    outcome of [response.json()]. *)
Record http_response : Type := HttpResponse {
  ok : bool;
  http_status : Z;
  json : result value;
}.

Record browser : Type := Browser {
  fetch : value -> result http_response;
  JSON_stringify : value -> jsstring;
  replacements : jsstring -> jsstring;
}.

(** The [.ai-chat-response] element: its [innerHTML] and whether its
    class list holds [ai-chat-response-error]. *)
Record output : Type := Output {
  innerHTML : jsstring;
  error_class : bool;
}.

(** The element: [this._data], the [include-output] attribute, the
    output element found by [querySelector] and the value of the text
    area. *)
Record component : Type := Component {
  _data : value;
  include_output : bool;
  responseElement : option output;
  inputBox : jsstring;
}.

(** What the element does to the outside: the POST it sends (with the
    value whose JSON text is the body), the events it dispatches and the
    console line of the [catch]. *)
Inductive effect : Type :=
| Post (body : value)
| Dispatch (name : jsstring) (detail : value)
| LogError (label : jsstring) (e : error).

Definition is_post (ef : effect) : bool :=
  match ef with Post _ => true | _ => false end.

Definition is_dispatch (ef : effect) : bool :=
  match ef with Dispatch _ _ => true | _ => false end.

(** A method of the element: returns or throws, leaves the element in
    some state, and has effects. *)
Definition W (A : Type) : Type := component -> result A * component * list effect.

Definition wret {A} (a : A) : W A := fun c => (Ok a, c, []).

Definition wthrow {A} (e : error) : W A := fun c => (Throw e, c, []).

Definition wbind {A C} (m : W A) (k : A -> W C) : W C :=
  fun c =>
    match m c with
    | (Ok a, c1, t1) =>
        match k a c1 with (r, c2, t2) => (r, c2, t1 ++ t2) end
    | (Throw e, c1, t1) => (Throw e, c1, t1)
    end.

Declare Scope dom_scope.
Delimit Scope dom_scope with dom.
Notation "'let*' x ':=' m 'in' k" := (wbind m (fun x => k))
  (at level 10, x name, m at level 100, k at level 200) : dom_scope.
Notation "m ';*' k" := (wbind m (fun _ => k))
  (at level 100, k at level 200, right associativity) : dom_scope.
Local Open Scope dom_scope.

Definition self : W component := fun c => (Ok c, c, []).

Definition update (f : component -> component) : W unit := fun c => (Ok tt, f c, []).

Definition perform (ef : effect) : W unit := fun c => (Ok tt, c, [ef]).

Definition weval {A} (r : result A) : W A := fun c => (r, c, []).

Definition wtry {A} (m : W A) (h : error -> W A) : W A :=
  fun c =>
    match m c with
    | (Ok a, c1, t1) => (Ok a, c1, t1)
    | (Throw e, c1, t1) =>
        match h e c1 with (r, c2, t2) => (r, c2, t1 ++ t2) end
    end.

(** [typeof v === 'object'] *)
Definition is_object (v : value) : bool :=
  match v with
  | VNull | VArr _ | VObj _ => true
  | _ => false
  end.

(** [`${n}`] for an integer. *)
Definition number_text (n : Z) : jsstring :=
  lit (NilZero.string_of_int (Z.to_int n)).

(** [!this._data || (typeof this._data === 'object' && !this._data.message)] *)
Definition nothing_to_send (d : value) : result bool :=
  if negb (truthy d) then Ok true
  else if is_object d then
    match prop d (lit "message") with
    | Ok message => Ok (negb (truthy message))
    | Throw e => Throw e
    end
  else Ok false.

(** [data.reply || data.message || JSON.stringify(data)] *)
Definition reply_of (b : browser) (data : value) : result value :=
  match prop data (lit "reply") with
  | Throw e => Throw e
  | Ok reply =>
      if truthy reply then Ok reply
      else match prop data (lit "message") with
           | Throw e => Throw e
           | Ok message =>
               if truthy message then Ok message
               else Ok (VStr (JSON_stringify b data))
           end
  end.

(** [data.debug?.modelProvider || null] *)
Definition modelProvider_of (data : value) : result value :=
  match prop data (lit "debug") with
  | Throw e => Throw e
  | Ok VUndefined | Ok VNull => Ok VNull
  | Ok dbg =>
      match prop dbg (lit "modelProvider") with
      | Throw e => Throw e
      | Ok kind => Ok (if truthy kind then kind else VNull)
      end
  end.

(** The last step of [renderMarkdown]. *)
Definition wrap_paragraph (html : jsstring) : jsstring :=
  if negb (startsWith html (lit "<h")) && negb (startsWith html (lit "<pre"))
     && negb (startsWith html (lit "<p>"))
  then lit "<p>" ++ html ++ lit "</p>"
  else html.

(** [renderMarkdown(text)]: the empty string for a falsy text; a value
    that is not a string has no [replace] method. *)
Definition renderMarkdown (b : browser) (text : value) : result jsstring :=
  if negb (truthy text) then Ok []
  else match text with
       | VStr s => Ok (wrap_paragraph (replacements b s))
       | _ => Throw (TypeError (lit "text.replace is not a function"))
       end.

(** An assignment to the output element, when the attribute is set and
    the element is found. *)
Definition set_output (f : output -> output) (c : component) : component :=
  if include_output c then
    match responseElement c with
    | Some el => Component (_data c) (include_output c) (Some (f el)) (inputBox c)
    | None => c
    end
  else c.

Definition fetchChatResponse (b : browser) : W unit :=
  wtry
    (let* this := self in
     let* skip := weval (nothing_to_send (_data this)) in
     if skip then wret tt
     else
       let* response := (perform (Post (_data this)) ;* weval (fetch b (_data this))) in
       if negb (ok response) then
         wthrow (Error (lit "HTTP error! status: " ++ number_text (http_status response)))
       else
         let* data := weval (json response) in
         let* reply := weval (reply_of b data) in
         let* modelProvider := weval (modelProvider_of data) in
         (if include_output this then
            match responseElement this with
            | Some _ =>
                let* html := weval (renderMarkdown b reply) in
                update (set_output (fun el => Output html (error_class el)))
            | None => wret tt
            end
          else wret tt) ;*
         perform (Dispatch (lit "message")
                    (VObj [(lit "message", reply);
                           (lit "modelProvider", modelProvider)])))
    (fun error =>
       update (set_output (fun _ => Output (lit "Failed to fetch response.") true)) ;*
       perform (LogError (lit "Error fetching chat response:") error) ;*
       perform (Dispatch (lit "error") (VStr (error_message error)))).

(** [set data(value)] *)
Definition set_data (b : browser) (v : value) : W unit :=
  update (fun c => Component v (include_output c) (responseElement c) (inputBox c)) ;*
  fetchChatResponse b.

(** The click listener of the submit button. *)
Definition on_submit (b : browser) : W unit :=
  let* this := self in
  let data := inputBox this in
  if truthy (VStr (trim data)) then set_data b (VObj [(lit "message", VStr data)])
  else wret tt.

(** The click listener of the clear button. *)
Definition on_clear (b : browser) : W unit :=
  update (fun c => Component (_data c) (include_output c) (responseElement c) []) ;*
  set_data b (VObj [(lit "message", VStr [])]).

(** The number of requests and of events in a trace. *)
Definition posts (t : list effect) : nat := length (List.filter is_post t).

Definition dispatches (t : list effect) : nat := length (List.filter is_dispatch t).


(** A browser whose [fetch] answers 200 with a reply. *)
Definition replying : browser :=
  {| fetch := fun body =>
       Ok (HttpResponse true 200
             (Ok (VObj [(lit "reply", VStr (lit "Hello"));
                        (lit "request", body);
                        (lit "debug",
                         VObj [(lit "modelProvider", VStr (lit "google-vertexai"))])])));
     JSON_stringify := fun _ => lit "{}";
     replacements := fun s => s |}.

(** An element showing its output, with [hi] typed into its text area. *)
Definition typed_hi : component :=
  Component VNull true (Some (Output (lit "Loading response...") false)) (lit "hi").


(** The same element after a failed request. *)
Definition failed_once : component :=
  Component (VObj [(lit "message", VStr (lit "hi"))]) true
    (Some (Output (lit "Failed to fetch response.") true)) (lit "hi").

End WebComponent.

(* ------------------------------------------------------------------ *)
(** ** Facts about [trim] *)

Lemma trimStart_blank (s : jsstring) : blank s = true -> trimStart s = [].
Proof.
  induction s as [|c s IH]; simpl; [reflexivity|].
  intros H. apply andb_true_iff in H as [Hc Hs]. rewrite Hc. auto.
Qed.

Lemma trimStart_not_blank (s : jsstring) :
  blank s = false -> blank (trimStart s) = false.
Proof.
  induction s as [|c s IH]; simpl; [discriminate|].
  destruct (is_white_space c) eqn:Hc; simpl; [exact IH|].
  intros _. rewrite Hc. reflexivity.
Qed.

Lemma blank_rev (s : jsstring) : blank (rev s) = blank s.
Proof.
  unfold blank. induction s as [|c s IH]; simpl; [reflexivity|].
  rewrite forallb_app, IH. simpl. rewrite andb_true_r. apply andb_comm.
Qed.

Lemma trim_blank (s : jsstring) : blank s = true -> trim s = [].
Proof.
  intros H. unfold trim, trimEnd. rewrite (trimStart_blank s H). reflexivity.
Qed.

Lemma trim_not_blank (s : jsstring) : blank s = false -> trim s <> [].
Proof.
  intros H. unfold trim, trimEnd.
  pose proof (trimStart_not_blank s H) as H1.
  rewrite <- blank_rev in H1.
  apply trimStart_not_blank in H1.
  rewrite <- blank_rev in H1.
  intros E. rewrite E in H1. discriminate.
Qed.

(** The validation test of the POST handler on a string. *)
Lemma message_missing_string (s : jsstring) :
  message_missing (VStr s) = Ok (blank s).
Proof.
  unfold message_missing. destruct s as [|c s]; [reflexivity|].
  cbn [truthy call_trim].
  destruct (blank (c :: s)) eqn:Hb.
  - rewrite (trim_blank _ Hb). reflexivity.
  - pose proof (trim_not_blank _ Hb) as Hn.
    destruct (trim (c :: s)); [congruence | reflexivity].
Qed.

(* ------------------------------------------------------------------ *)
(** ** Facts about the methods *)

(** Unfolds the monad's operations. *)
Ltac run_monad :=
  unfold await in *;
  unfold bind, eval, emit, this, ret, throw, try_catch in *;
  cbn beta iota in *.

Lemma read_only_ret {S A} (a : A) : read_only (@ret S A a).
Proof. intros s. reflexivity. Qed.

Lemma read_only_throw {S A} (e : error) : read_only (@throw S A e).
Proof. intros s. reflexivity. Qed.

Lemma read_only_this {S} : read_only (@this S).
Proof. intros s. reflexivity. Qed.

Lemma read_only_eval {S A} (r : result A) : read_only (@eval S A r).
Proof. intros s. reflexivity. Qed.

Lemma read_only_emit {S} (ev : event) : read_only (@emit S ev).
Proof. intros s. reflexivity. Qed.

Lemma read_only_bind {S A C} (m : M S A) (k : A -> M S C) :
  read_only m -> (forall a, read_only (k a)) -> read_only (bind m k).
Proof.
  intros Hm Hk s. unfold bind. specialize (Hm s).
  destruct (m s) as [[[a|e] s1] t1]; simpl in Hm; subst s1; [|reflexivity].
  specialize (Hk a s). destruct (k a s) as [[r s2] t2]. exact Hk.
Qed.

Lemma read_only_await {S A} (call : event) (r : result A) :
  read_only (@await S A call r).
Proof.
  apply read_only_bind; [apply read_only_emit | intros _; apply read_only_eval].
Qed.

Lemma read_only_try_catch {S A} (m : M S A) (h : error -> M S A) :
  read_only m -> (forall e, read_only (h e)) -> read_only (try_catch m h).
Proof.
  intros Hm Hh s. unfold try_catch. specialize (Hm s).
  destruct (m s) as [[[a|e] s1] t1]; simpl in Hm; subst s1; [reflexivity|].
  specialize (Hh e s). destruct (h e s) as [[r s2] t2]. exact Hh.
Qed.

Create HintDb read_only.
#[export] Hint Resolve read_only_ret read_only_throw read_only_this read_only_eval
  read_only_emit read_only_bind read_only_await read_only_try_catch : read_only.

Section Properties.

Variable B : collaborators.
Variable cfg : config.

Lemma VertexAIProvider_generateContent_reads (m : value) :
  read_only (VertexAIProvider_generateContent B m).
Proof. unfold VertexAIProvider_generateContent. auto 20 with read_only. Qed.

Lemma GoogleAIStudioProvider_generateContent_reads (m : value) :
  read_only (GoogleAIStudioProvider_generateContent B m).
Proof. unfold GoogleAIStudioProvider_generateContent. auto 20 with read_only. Qed.

(** [provider.generateContent] assigns to no field of the provider
    object, whichever subclass it is. *)
Lemma generateContent_reads (m : value) :
  read_only (generateContent (ModelProvider := provider_ModelProvider B) m).
Proof.
  intros [self|self]; cbn [generateContent provider_ModelProvider];
    unfold method.
  - pose proof (VertexAIProvider_generateContent_reads m self) as H.
    cbn [generateContent VertexAIProvider_ModelProvider].
    destruct (VertexAIProvider_generateContent B m self) as [[r s'] t].
    simpl in *. congruence.
  - pose proof (GoogleAIStudioProvider_generateContent_reads m self) as H.
    cbn [generateContent GoogleAIStudioProvider_ModelProvider].
    destruct (GoogleAIStudioProvider_generateContent B m self) as [[r s'] t].
    simpl in *. congruence.
Qed.

(** Both handlers leave the provider object as they found it. *)
Lemma route_reads (v : verb) (req : request) : read_only (route B cfg v req).
Proof.
  destruct v; unfold route, get_handler, post_handler.
  - auto with read_only.
  - apply read_only_try_catch; [|auto with read_only].
    apply read_only_bind; [auto with read_only|intros userMessage].
    apply read_only_bind; [auto with read_only|intros [|]].
    + auto with read_only.
    + apply read_only_bind; [apply generateContent_reads|auto with read_only].
Qed.

(* ------------------------------------------------------------------ *)
(** ** The HTTP surface *)

(** C7: [GET /] answers 200 with the fixed message and the request body
    echoed, whatever the body and whatever the provider object; the
    provider object is left as it was and no collaborator is called (the
    trace is empty). *)
Theorem health_check_always_200 (req : request) (p : provider) :
  route B cfg GET req p =
    (Ok (Response 200
           (VObj [(lit "message", VStr (lit "Health check successful"));
                  (lit "request", req_body req)])),
     p, []).
Proof. reflexivity. Qed.


(** C6: when [generateContent] throws on a valid message, the handler
    answers 500 with the fixed error and the thrown error's message as
    [details]; the handler itself returns (nothing escapes it), the
    provider object is unchanged, and the requests that follow are served
    by the same server. *)
Theorem generation_failure_is_500
    (fields : list (jsstring * value)) (s : jsstring) (p p' : provider)
    (e : error) (t : list event) :
  lookup_field (lit "message") fields = Some (VStr s) ->
  blank s = false ->
  generateContent (ModelProvider := provider_ModelProvider B) (VStr s) p
    = (Throw e, p', t) ->
  let req := Request (VObj fields) in
  let logged := t ++ [ConsoleError (lit "Error generating content:") e] in
  route B cfg POST req p = (Ok (generation_error e), p, logged)
  /\ forall rest,
       serve B cfg ((POST, req) :: rest) p =
         match serve B cfg rest p with
         | (rs, p2, t2) => (Ok (generation_error e) :: rs, p2, logged ++ t2)
         end.
Proof.
  intros Hm Hs Hg req logged.
  assert (Hp : p' = p).
  { pose proof (generateContent_reads (VStr s) p) as H. rewrite Hg in H. exact H. }
  subst p'.
  assert (Hr : route B cfg POST req p = (Ok (generation_error e), p, logged)).
  { unfold route, post_handler. run_monad. cbn [req_body prop req].
    rewrite Hm. cbn [default from_option id].
    rewrite message_missing_string, Hs, Hg. reflexivity. }
  split; [exact Hr|].
  intros rest. cbn [serve]. rewrite Hr. reflexivity.
Qed.

(** C9: every 200 reply to [POST /] has the body
    [{ reply, request, debug }], where [reply] is what [generateContent]
    returned for the request's message, [request] is the request body and
    [debug] holds the model name, project, location and provider kind of
    the configuration. *)
Theorem successful_reply_carries_debug
    (req : request) (p p' : provider) (resp : response) (t : list event) :
  route B cfg POST req p = (Ok resp, p', t) ->
  status resp = 200 ->
  exists userMessage reply,
    prop (req_body req) (lit "message") = Ok userMessage
    /\ generateContent (ModelProvider := provider_ModelProvider B) userMessage p
        = (Ok reply, p', t)
    /\ body resp =
        VObj [(lit "reply", reply);
              (lit "request", req_body req);
              (lit "debug",
               VObj [(lit "MODEL_NAME", VStr (modelName cfg));
                     (lit "project", of_optional (project cfg));
                     (lit "location", VStr (location cfg));
                     (lit "modelProvider", VStr (modelProvider cfg))])].
Proof.
  unfold route, post_handler. run_monad. intros H Hst.
  destruct (prop (req_body req) (lit "message")) as [userMessage|e0] eqn:Hm;
    [|simplify_eq; discriminate].
  destruct (message_missing userMessage) as [[|]|e1];
    [simplify_eq; discriminate| |simplify_eq; discriminate].
  destruct (generateContent userMessage p) as [[[reply|e2] p1] t1] eqn:Hg;
    [|simplify_eq; discriminate].
  simplify_eq. exists userMessage, reply.
  split; [reflexivity|]. split; [|reflexivity].
  cbn [app]. rewrite ?app_nil_r. exact Hg.
Qed.

(** C10, as the code has it: a [message] that is present and not a
    string is answered 500 when it is truthy (a non-zero number, [true],
    an array, an object), because [userMessage.trim] is not a function
    there, and 400 when it is falsy ([null], [false], [0]), because
    [!userMessage] already holds; [generateContent] is called in neither
    case. *)
Theorem non_string_message
    (fields : list (jsstring * value)) (v : value) (p : provider) :
  lookup_field (lit "message") fields = Some v ->
  (forall s, v <> VStr s) ->
  let not_a_function := TypeError (lit "userMessage.trim is not a function") in
  route B cfg POST (Request (VObj fields)) p =
    if truthy v
    then (Ok (generation_error not_a_function), p,
          [ConsoleError (lit "Error generating content:") not_a_function])
    else (Ok message_required, p, []).
Proof.
  intros Hm Hv. unfold route, post_handler. run_monad. cbn [req_body prop].
  rewrite Hm. cbn [default from_option id].
  destruct v as [| |[|]|n|s| |]; try reflexivity.
  - unfold message_missing. cbn [truthy]. destruct (n =? 0); reflexivity.
  - destruct (Hv s eq_refl).
Qed.

(* ------------------------------------------------------------------ *)
(** ** [generateContent] *)

(** C8: a [generateContent] call leaves the provider object exactly as
    it was, so a second call with the same message, made on the object
    the first call left behind, returns the same outcome and makes the
    same backend call; this holds for both subclasses. *)
Theorem generate_twice_same (m : value) (p : provider) :
  let once := generateContent (ModelProvider := provider_ModelProvider B) m p in
  snd (fst once) = p
  /\ generateContent (ModelProvider := provider_ModelProvider B) m (snd (fst once))
     = once.
Proof.
  intros once. pose proof (generateContent_reads m p) as H.
  fold once in H. split; [exact H|]. rewrite H. reflexivity.
Qed.

(** C5, as the code has it: on an initialised Vertex provider a
    successful [generateContent] made exactly one backend call and
    returns the value found at
    [result.response.candidates[0].content.parts[0].text], whatever that
    value is; and when the backend answers with an empty candidate list
    the call throws (reading [content] of [undefined]) instead of
    returning. *)
Theorem vertex_generate_first_candidate_text
    (self : VertexAIProvider) (model : vertex_model) (m : value) :
  v_model self = Some model ->
  let call := VertexGenerate model (vertex_request m) in
  let answer := vertex_generateContent B model (vertex_request m) in
  (forall v self' t,
     VertexAIProvider_generateContent B m self = (Ok v, self', t) ->
     self' = self /\ t = [call]
     /\ exists result response candidates candidate content parts part,
         answer = Ok result
         /\ prop result (lit "response") = Ok response
         /\ prop response (lit "candidates") = Ok candidates
         /\ first candidates = Ok candidate
         /\ prop candidate (lit "content") = Ok content
         /\ prop content (lit "parts") = Ok parts
         /\ first parts = Ok part
         /\ prop part (lit "text") = Ok v)
  /\ (forall result response,
        answer = Ok result ->
        prop result (lit "response") = Ok response ->
        prop response (lit "candidates") = Ok (VArr []) ->
        VertexAIProvider_generateContent B m self
          = (Throw (cannot_read VUndefined (lit "content")), self, [call])).
Proof.
  intros Hmodel call answer. subst call answer.
  unfold VertexAIProvider_generateContent. run_monad. rewrite Hmodel.
  split.
  - intros v self' t H.
    destruct (vertex_generateContent B model (vertex_request m))
      as [result|e] eqn:H0; [|discriminate].
    destruct (prop result (lit "response")) as [response|e] eqn:H1; [|discriminate].
    destruct (prop response (lit "candidates")) as [candidates|e] eqn:H2; [|discriminate].
    destruct (first candidates) as [candidate|e] eqn:H3; [|discriminate].
    destruct (prop candidate (lit "content")) as [content|e] eqn:H4; [|discriminate].
    destruct (prop content (lit "parts")) as [parts|e] eqn:H5; [|discriminate].
    destruct (first parts) as [part|e] eqn:H6; [|discriminate].
    destruct (prop part (lit "text")) as [text|e] eqn:H7; [|discriminate].
    simplify_eq. split; [reflexivity|]. split; [reflexivity|].
    exists result, response, candidates, candidate, content, parts, part.
    repeat split; reflexivity || assumption.
  - intros result response Ha Hr Hc. rewrite Ha, Hr, Hc. reflexivity.
Qed.

(* ------------------------------------------------------------------ *)
(** ** Initialisation of the AI Studio variant *)

(** Past its two guards, [init] asks the store for [secretVersion]. *)
Lemma GoogleAIStudioProvider_init_past_guards (self : GoogleAIStudioProvider) :
  s_secretName self <> [] ->
  falsy (s_project self) && negb (startsWith (s_secretName self) (lit "projects/"))
    = false ->
  resolves_to B self (secretVersion self).
Proof.
  intros Hn Hg. unfold resolves_to, GoogleAIStudioProvider_init. run_monad.
  destruct (s_secretName self) as [|c n] eqn:Hs; [congruence|].
  cbn [falsy]. rewrite Hg.
  destruct (accessSecretVersion B (secretVersion self)); repeat split.
Qed.

(** C1: for a bare secret name [n] and a configured project [p],
    [init] resolves [projects/p/secrets/n/versions/latest]; for a
    reference that starts with [projects/], it resolves the reference
    followed by [/versions/latest], whether or not a project is
    configured.  Either way that path is the one and only request made to
    the secret store. *)
Theorem secret_version_resolution (mn n : jsstring) :
  (forall p,
     n <> [] -> p <> [] -> startsWith n (lit "projects/") = false ->
     resolves_to B (new_GoogleAIStudioProvider mn (Some p) n)
       (lit "projects/" ++ p ++ lit "/secrets/" ++ n ++ lit "/versions/latest"))
  /\ (forall proj,
        startsWith n (lit "projects/") = true ->
        resolves_to B (new_GoogleAIStudioProvider mn proj n)
          (n ++ lit "/versions/latest")).
Proof.
  split.
  - intros p Hn Hp Hbare.
    pose proof (GoogleAIStudioProvider_init_past_guards
                  (new_GoogleAIStudioProvider mn (Some p) n)) as H.
    unfold secretVersion in H. cbn [new_GoogleAIStudioProvider s_secretName s_project] in H.
    rewrite Hbare in H. apply H; [exact Hn|].
    destruct p; [congruence|reflexivity].
  - intros proj Hfull.
    pose proof (GoogleAIStudioProvider_init_past_guards
                  (new_GoogleAIStudioProvider mn proj n)) as H.
    unfold secretVersion in H. cbn [new_GoogleAIStudioProvider s_secretName s_project] in H.
    rewrite Hfull in H. apply H.
    + destruct n; [discriminate|congruence].
    + rewrite andb_false_r. reflexivity.
Qed.

End Properties.

(* ------------------------------------------------------------------ *)
(** ** Selection and startup *)

Lemma or_else_falsy (a b : option jsstring) : falsy a = true -> or_else a b = b.
Proof. destruct a as [[|c s]|]; simpl; [reflexivity|discriminate|reflexivity]. Qed.

Lemma or_default_falsy (a : option jsstring) (d : jsstring) :
  falsy a = true -> or_default a d = d.
Proof. destruct a as [[|c s]|]; simpl; [reflexivity|discriminate|reflexivity]. Qed.

Lemma or_default_set (s d : jsstring) : s <> [] -> or_default (Some s) d = s.
Proof. destruct s; [congruence|reflexivity]. Qed.

Lemma str_eq_ne (a b : jsstring) : a <> b -> str_eq a b = false.
Proof. intros H. unfold str_eq. apply bool_decide_eq_false. exact H. Qed.

(** [createProvider] on a selector that is neither recognised kind. *)
Lemma createProvider_invalid (cfg : config) :
  modelProvider cfg <> GOOGLE_VERTEXAI ->
  modelProvider cfg <> GOOGLE_AI_STUDIO ->
  createProvider cfg tt
    = (Throw (Error (lit "Invalid model provider: " ++ modelProvider cfg)), tt, []).
Proof.
  intros Hv Hs. unfold createProvider.
  rewrite (str_eq_ne _ _ Hv), (str_eq_ne _ _ Hs). reflexivity.
Qed.

(** C4, as the code has it: with [MODEL_PROVIDER] unset, the AI Studio
    provider is constructed from the configuration; with
    [MODEL_PROVIDER] set to a non-empty string that is neither recognised
    kind, [createProvider] throws [Invalid model provider: <string>] and
    constructs nothing. *)
Theorem provider_selection (env : gmap string jsstring) :
  let cfg := load_config env in
  (env !! "MODEL_PROVIDER"%string = None ->
   fst (fst (createProvider cfg tt))
     = Ok (AIStudio (new_GoogleAIStudioProvider (modelName cfg) (project cfg)
                       (googleAIStudioApiSecret cfg))))
  /\ (forall s,
        env !! "MODEL_PROVIDER"%string = Some s ->
        s <> [] -> s <> GOOGLE_VERTEXAI -> s <> GOOGLE_AI_STUDIO ->
        createProvider cfg tt
          = (Throw (Error (lit "Invalid model provider: " ++ s)), tt, [])).
Proof.
  intros cfg. split.
  - intros Hunset. unfold createProvider.
    assert (Hk : modelProvider cfg = GOOGLE_AI_STUDIO).
    { subst cfg. cbn [load_config modelProvider]. rewrite Hunset. reflexivity. }
    rewrite Hk. reflexivity.
  - intros s Hset Hne Hv Hs.
    assert (Hk : modelProvider cfg = s).
    { subst cfg. cbn [load_config modelProvider]. rewrite Hset.
      apply or_default_set, Hne. }
    rewrite <- Hk in Hv, Hs |- *. apply createProvider_invalid; assumption.
Qed.

(** C2, as the code has it: the process ends without reaching
    [app.listen] when the Vertex variant is selected and neither project
    variable holds a non-empty string ([init] throws, exit status 1), and
    when the provider kind is neither recognised value ([createProvider]
    throws at module level).  For the AI Studio variant an unset or empty
    [GOOGLE_AI_STUDIO_API_SECRET] is replaced by [gemini-api-key-secret],
    so the secret reference is never missing at startup; only a provider
    object constructed with an empty secret name makes [startServer] exit
    with the missing-secret error. *)
Theorem startup_failures (B : collaborators) (env : gmap string jsstring) :
  let cfg := load_config env in
  let failed := lit "Error: Failed to initialize model provider:" in
  (env !! "MODEL_PROVIDER"%string = Some GOOGLE_VERTEXAI ->
   falsy (env !! "GOOGLE_CLOUD_PROJECT"%string) = true ->
   falsy (env !! "GCP_PROJECT"%string) = true ->
   run B env =
     (Exited 1,
      [ConsoleLog (lit "Using Vertex AI with model: " ++ modelName cfg
                   ++ lit " (service account authentication)");
       ConsoleError failed
         (Error (lit "GOOGLE_CLOUD_PROJECT environment variable is required for Vertex AI"))]))
  /\ (modelProvider cfg <> GOOGLE_VERTEXAI ->
      modelProvider cfg <> GOOGLE_AI_STUDIO ->
      run B env =
        (Uncaught (Error (lit "Invalid model provider: " ++ modelProvider cfg)), []))
  /\ (falsy (env !! "GOOGLE_AI_STUDIO_API_SECRET"%string) = true ->
      googleAIStudioApiSecret cfg = lit "gemini-api-key-secret")
  /\ (forall mn proj,
        startServer B cfg (AIStudio (new_GoogleAIStudioProvider mn proj []))
          = (Exited 1,
             [ConsoleError failed
                (Error (lit "GOOGLE_AI_STUDIO_API_SECRET environment variable is required for Google AI Studio"))])).
Proof.
  intros cfg failed. split; [|split; [|split]].
  - intros Hk Hp1 Hp2.
    assert (Hkind : modelProvider cfg = GOOGLE_VERTEXAI).
    { subst cfg. cbn [load_config modelProvider]. rewrite Hk. reflexivity. }
    assert (Hproj : falsy (project cfg) = true).
    { subst cfg. cbn [load_config project]. rewrite (or_else_falsy _ _ Hp1).
      exact Hp2. }
    unfold run. change (load_config env) with cfg. clearbody cfg.
    unfold main, createProvider. rewrite Hkind.
    change (str_eq GOOGLE_VERTEXAI GOOGLE_VERTEXAI) with true.
    run_monad. unfold startServer.
    cbn [init provider_ModelProvider]. unfold method.
    cbn [init VertexAIProvider_ModelProvider].
    unfold VertexAIProvider_init. run_monad.
    cbn [new_VertexAIProvider v_project]. rewrite Hproj. reflexivity.
  - intros Hv Hs. unfold run, main. fold cfg.
    rewrite (createProvider_invalid cfg Hv Hs). reflexivity.
  - intros Hsecret. subst cfg. cbn [load_config googleAIStudioApiSecret].
    apply or_default_falsy, Hsecret.
  - intros mn proj. reflexivity.
Qed.

(* ------------------------------------------------------------------ *)
(** ** Where the stated claims fail *)

(** C2 as stated fails: with the AI Studio variant selected and no
    secret reference configured, the default secret name is used and the
    server binds its port. *)
Lemma default_secret_reference_binds :
  ~ (forall (B : collaborators) (env : gmap string jsstring),
       modelProvider (load_config env) = GOOGLE_AI_STUDIO ->
       env !! "GOOGLE_AI_STUDIO_API_SECRET"%string = None ->
       bound (fst (run B env)) = false).
Proof.
  intros H.
  specialize (H answering
                {[ "MODEL_PROVIDER"%string := lit "google-ai-studio";
                   "GOOGLE_CLOUD_PROJECT"%string := lit "proj-1" ]}).
  vm_compute in H. specialize (H eq_refl eq_refl). discriminate.
Qed.


(** C4 as stated fails: [MODEL_PROVIDER] set to the empty string is a
    string other than the two recognised kinds, and the AI Studio provider
    is constructed all the same. *)
Lemma empty_selector_falls_back :
  ~ (forall (env : gmap string jsstring) (s : jsstring),
       env !! "MODEL_PROVIDER"%string = Some s ->
       s <> GOOGLE_VERTEXAI -> s <> GOOGLE_AI_STUDIO ->
       exists e, fst (fst (createProvider (load_config env) tt)) = Throw e).
Proof.
  intros H.
  destruct (H {[ "MODEL_PROVIDER"%string := [] ]} [])
    as [e He]; [reflexivity|discriminate|discriminate|].
  vm_compute in He. discriminate.
Qed.

(** C5 as stated fails: when the first part of the first candidate has
    no [text] (a function call), [generateContent] succeeds and returns
    [undefined]. *)
Lemma textless_part_returns_undefined :
  ~ (forall (B : collaborators) (self self' : VertexAIProvider)
            (s : jsstring) (v : value) (t : list event),
       s <> [] -> trim s = s ->
       VertexAIProvider_generateContent B (VStr s) self = (Ok v, self', t) ->
       exists text, v = VStr text).
Proof.
  intros H.
  destruct (H textless sample_vertex_self sample_vertex_self (lit "hi") VUndefined
              [VertexGenerate sample_vertex_model (vertex_request (VStr (lit "hi")))])
    as [text Ht]; [discriminate|reflexivity|reflexivity|discriminate].
Qed.

(** C10 as stated fails: [{ "message": 0 }] has a [message] that is not
    a string, and the answer is 400, not 500. *)
Lemma zero_message_is_400 :
  ~ (forall (B : collaborators) (cfg : config) (fields : list (jsstring * value))
            (v : value) (p : provider),
       lookup_field (lit "message") fields = Some v ->
       (forall s, v <> VStr s) ->
       exists e p' t,
         route B cfg POST (Request (VObj fields)) p = (Ok (generation_error e), p', t)).
Proof.
  intros H.
  destruct (H answering sample_config [(lit "message", VNum 0)] (VNum 0) sample_vertex)
    as (e & p' & t & He); [reflexivity|discriminate|].
  vm_compute in He. discriminate.
Qed.

(* ------------------------------------------------------------------ *)
(** ** The statements at concrete inputs *)

(** The two examples of the specification: [my-secret] in [proj-1], and
    the fully-qualified reference with no project configured. *)
Lemma secret_version_resolution_witness :
  resolves_to answering
    (new_GoogleAIStudioProvider (lit "gemini-2.0-flash-lite") (Some (lit "proj-1"))
       (lit "my-secret"))
    (lit "projects/proj-1/secrets/my-secret/versions/latest")
  /\ resolves_to answering
       (new_GoogleAIStudioProvider (lit "gemini-2.0-flash-lite") None
          (lit "projects/proj-1/secrets/my-secret"))
       (lit "projects/proj-1/secrets/my-secret/versions/latest").
Proof.
  split.
  - apply (proj1 (secret_version_resolution answering (lit "gemini-2.0-flash-lite")
                    (lit "my-secret")) (lit "proj-1"));
      [discriminate | discriminate | reflexivity].
  - apply (proj2 (secret_version_resolution answering (lit "gemini-2.0-flash-lite")
                    (lit "projects/proj-1/secrets/my-secret")) None).
    reflexivity.
Defined.


(** A backend that rejects with [quota exceeded]. *)
Lemma generation_failure_is_500_witness :
  route failing sample_config POST (Request (VObj hi_fields)) sample_vertex
    = (Ok (generation_error quota_exceeded), sample_vertex,
       [hi_call; ConsoleError (lit "Error generating content:") quota_exceeded]).
Proof.
  exact (proj1 (generation_failure_is_500 failing sample_config hi_fields (lit "hi")
                  sample_vertex sample_vertex quota_exceeded [hi_call]
                  eq_refl eq_refl eq_refl)).
Defined.

(** A backend that answers [Hello]. *)
Lemma successful_reply_carries_debug_witness :
  exists userMessage reply,
    prop (VObj hi_fields) (lit "message") = Ok userMessage
    /\ generateContent (ModelProvider := provider_ModelProvider answering)
         userMessage sample_vertex
        = (Ok reply, sample_vertex, [hi_call])
    /\ VObj [(lit "reply", VStr (lit "Hello"));
             (lit "request", VObj hi_fields);
             (lit "debug", debug sample_config)]
       = VObj [(lit "reply", reply);
               (lit "request", VObj hi_fields);
               (lit "debug",
                VObj [(lit "MODEL_NAME", VStr (lit "gemini-2.0-flash-lite"));
                      (lit "project", VStr (lit "proj-1"));
                      (lit "location", VStr (lit "us-central1"));
                      (lit "modelProvider", VStr (lit "google-vertexai"))])].
Proof.
  exact (successful_reply_carries_debug answering sample_config
           (Request (VObj hi_fields)) sample_vertex sample_vertex
           (Response 200
              (VObj [(lit "reply", VStr (lit "Hello"));
                     (lit "request", VObj hi_fields);
                     (lit "debug", debug sample_config)]))
           [hi_call] eq_refl eq_refl).
Defined.

(** [{ "message": 5 }] is answered 500 and [{ "message": null }] 400. *)
Lemma non_string_message_witness :
  route answering sample_config POST
    (Request (VObj [(lit "message", VNum 5)])) sample_vertex
    = (Ok (generation_error (TypeError (lit "userMessage.trim is not a function"))),
       sample_vertex,
       [ConsoleError (lit "Error generating content:")
          (TypeError (lit "userMessage.trim is not a function"))])
  /\ route answering sample_config POST
       (Request (VObj [(lit "message", VNull)])) sample_vertex
     = (Ok message_required, sample_vertex, []).
Proof.
  split.
  - apply (non_string_message answering sample_config
             [(lit "message", VNum 5)] (VNum 5) sample_vertex);
      [reflexivity | discriminate].
  - apply (non_string_message answering sample_config
             [(lit "message", VNull)] VNull sample_vertex);
      [reflexivity | discriminate].
Defined.

(** The answering backend's text is what comes back, and the backend
    without candidates makes the call throw. *)
Lemma vertex_generate_first_candidate_text_witness :
  (exists part, prop part (lit "text") = Ok (VStr (lit "Hello")))
  /\ VertexAIProvider_generateContent no_candidates (VStr (lit "hi")) sample_vertex_self
     = (Throw (cannot_read VUndefined (lit "content")), sample_vertex_self, [hi_call]).
Proof.
  split.
  - destruct (proj1 (vertex_generate_first_candidate_text answering
                       sample_vertex_self sample_vertex_model (VStr (lit "hi")) eq_refl)
                (VStr (lit "Hello")) sample_vertex_self [hi_call] eq_refl)
      as (_ & _ & result & response & candidates & candidate & content & parts
          & part & _ & _ & _ & _ & _ & _ & _ & Htext).
    exists part. exact Htext.
  - apply (proj2 (vertex_generate_first_candidate_text no_candidates
                    sample_vertex_self sample_vertex_model (VStr (lit "hi")) eq_refl)
             (VObj [(lit "response", VObj [(lit "candidates", VArr [])])])
             (VObj [(lit "candidates", VArr [])]));
      reflexivity.
Defined.

(** No [MODEL_PROVIDER], and [MODEL_PROVIDER=openai]. *)
Lemma provider_selection_witness :
  fst (fst (createProvider (load_config env_empty) tt))
    = Ok (AIStudio (new_GoogleAIStudioProvider (lit "gemini-2.0-flash-lite") None
                      (lit "gemini-api-key-secret")))
  /\ createProvider (load_config env_openai) tt
     = (Throw (Error (lit "Invalid model provider: openai")), tt, []).
Proof.
  split.
  - rewrite (proj1 (provider_selection env_empty) ltac:(vm_compute; reflexivity)).
    vm_compute. reflexivity.
  - rewrite (proj2 (provider_selection env_openai) (lit "openai")
               ltac:(vm_compute; reflexivity)
               ltac:(discriminate) ltac:(discriminate) ltac:(discriminate)).
    reflexivity.
Defined.

(** The Vertex variant with no project, and [MODEL_PROVIDER=openai]. *)
Lemma startup_failures_witness :
  fst (run answering env_vertex_only) = Exited 1
  /\ fst (run answering env_openai)
     = Uncaught (Error (lit "Invalid model provider: openai")).
Proof.
  split.
  - rewrite (proj1 (startup_failures answering env_vertex_only)
               ltac:(vm_compute; reflexivity) ltac:(vm_compute; reflexivity)
               ltac:(vm_compute; reflexivity)).
    reflexivity.
  - rewrite (proj1 (proj2 (startup_failures answering env_openai))
               ltac:(vm_compute; discriminate) ltac:(vm_compute; discriminate)).
    vm_compute. reflexivity.
Defined.

(* ------------------------------------------------------------------ *)
(** ** More about [trim] and [startsWith] *)

(** [trimStart] removes a blank prefix and nothing else. *)
Lemma trimStart_split (s : jsstring) :
  exists w, s = w ++ trimStart s /\ blank w = true.
Proof.
  induction s as [|c s (w & Hw & Hb)]; [exists []; split; reflexivity|].
  cbn [trimStart]. destruct (is_white_space c) eqn:Hc.
  - exists (c :: w). split; [cbn [app]; congruence|].
    cbn [blank forallb]. rewrite Hc. exact Hb.
  - exists []. split; reflexivity.
Qed.

Lemma trimStart_head (s : jsstring) :
  match trimStart s with
  | [] => True
  | c :: _ => is_white_space c = false
  end.
Proof.
  induction s as [|c s IH]; [exact I|].
  cbn [trimStart]. destruct (is_white_space c) eqn:Hc; [exact IH|exact Hc].
Qed.

Lemma trimStart_fixed (s : jsstring) :
  match s with
  | [] => True
  | c :: _ => is_white_space c = false
  end ->
  trimStart s = s.
Proof. destruct s as [|c s]; [reflexivity|]. cbn [trimStart]. intros ->. reflexivity. Qed.

Lemma trimStart_idempotent (s : jsstring) : trimStart (trimStart s) = trimStart s.
Proof. apply trimStart_fixed, trimStart_head. Qed.

(** [trimEnd] keeps a prefix of its argument. *)
Lemma trimEnd_prefix (s : jsstring) : exists w, s = trimEnd s ++ w /\ blank w = true.
Proof.
  destruct (trimStart_split (rev s)) as (w & Hw & Hb).
  exists (rev w). split; [|rewrite blank_rev; exact Hb].
  unfold trimEnd. rewrite <- rev_app_distr, <- Hw, rev_involutive. reflexivity.
Qed.

Lemma trimEnd_idempotent (s : jsstring) : trimEnd (trimEnd s) = trimEnd s.
Proof.
  unfold trimEnd. rewrite rev_involutive, trimStart_idempotent. reflexivity.
Qed.

Lemma trimStart_trimEnd (s : jsstring) :
  trimStart s = s -> trimStart (trimEnd s) = trimEnd s.
Proof.
  intros Hs. apply trimStart_fixed.
  destruct (trimEnd_prefix s) as (w & Hw & _).
  destruct (trimEnd s) as [|c r]; [exact I|].
  pose proof (trimStart_head s) as Hh. rewrite Hs, Hw in Hh. exact Hh.
Qed.

Lemma trimStart_trim (s : jsstring) : trimStart (trim s) = trim s.
Proof. apply trimStart_trimEnd, trimStart_idempotent. Qed.

Lemma trimEnd_trim (s : jsstring) : trimEnd (trim s) = trim s.
Proof. apply trimEnd_idempotent. Qed.

Lemma startsWith_split (s p : jsstring) :
  startsWith s p = true -> exists rest, s = p ++ rest.
Proof.
  revert s. induction p as [|a p IH]; intros s H; [exists s; reflexivity|].
  destruct s as [|b s]; [discriminate|].
  cbn [startsWith] in H. apply andb_true_iff in H as [Hab Hs].
  apply N.eqb_eq in Hab. subst b.
  destruct (IH s Hs) as [rest ->]. exists rest. reflexivity.
Qed.

(* ------------------------------------------------------------------ *)
(** ** The provider methods, beyond the claims *)

Section Methods.

Variable B : collaborators.

(** The trace of [generateContent] on the Vertex variant. *)
Lemma VertexAIProvider_generateContent_trace (m : value) (self : VertexAIProvider) :
  snd (VertexAIProvider_generateContent B m self) = backend_call (Vertex self) m.
Proof.
  unfold VertexAIProvider_generateContent, backend_call. run_monad.
  destruct (v_model self) as [model|]; [|reflexivity].
  destruct (vertex_generateContent B model (vertex_request m)) as [result|e];
    [|reflexivity].
  destruct (prop result (lit "response")) as [response|e]; [|reflexivity].
  destruct (prop response (lit "candidates")) as [candidates|e]; [|reflexivity].
  destruct (first candidates) as [candidate|e]; [|reflexivity].
  destruct (prop candidate (lit "content")) as [content|e]; [|reflexivity].
  destruct (prop content (lit "parts")) as [parts|e]; [|reflexivity].
  destruct (first parts) as [part|e]; [|reflexivity].
  destruct (prop part (lit "text")); reflexivity.
Qed.

(** The trace of [generateContent] on the AI Studio variant. *)
Lemma GoogleAIStudioProvider_generateContent_trace (m : value)
    (self : GoogleAIStudioProvider) :
  snd (GoogleAIStudioProvider_generateContent B m self) = backend_call (AIStudio self) m.
Proof.
  unfold GoogleAIStudioProvider_generateContent, backend_call. run_monad.
  destruct (s_model self) as [model|]; [|reflexivity].
  destruct (studio_generateContent B model m) as [[[text|e]]|e]; reflexivity.
Qed.

Lemma generateContent_trace (m : value) (p : provider) :
  snd (generateContent (ModelProvider := provider_ModelProvider B) m p)
    = backend_call p m.
Proof.
  destruct p as [self|self]; cbn [generateContent provider_ModelProvider];
    unfold method.
  - rewrite <- VertexAIProvider_generateContent_trace.
    cbn [generateContent VertexAIProvider_ModelProvider].
    destruct (VertexAIProvider_generateContent B m self) as [[r s'] t]. reflexivity.
  - rewrite <- GoogleAIStudioProvider_generateContent_trace.
    cbn [generateContent GoogleAIStudioProvider_ModelProvider].
    destruct (GoogleAIStudioProvider_generateContent B m self) as [[r s'] t].
    reflexivity.
Qed.

Lemma backend_call_count (p : provider) (m : value) :
  generate_calls (backend_call p m) = if initialised p then 1%nat else 0%nat.
Proof.
  destruct p as [self|self]; cbn [backend_call initialised].
  - destruct (v_model self); reflexivity.
  - destruct (s_model self); reflexivity.
Qed.


(** X2: [generateContent] before [init]: [this.model] is [null], the call
    throws the [TypeError] of reading [generateContent] of [null], and
    no backend is contacted. *)
Theorem generate_before_init_throws (m : value) (p : provider) :
  initialised p = false ->
  generateContent (ModelProvider := provider_ModelProvider B) m p
    = (Throw null_model, p, []).
Proof.
  destruct p as [self|self]; cbn [initialised]; intros H;
    cbn [generateContent provider_ModelProvider]; unfold method;
    cbn [generateContent VertexAIProvider_ModelProvider
           GoogleAIStudioProvider_ModelProvider].
  - unfold VertexAIProvider_generateContent. run_monad.
    destruct self as [mn pr loc [model|]]; [discriminate|reflexivity].
  - unfold GoogleAIStudioProvider_generateContent. run_monad.
    destruct self as [mn pr sn [model|]]; [discriminate|reflexivity].
Qed.

End Methods.

(* ------------------------------------------------------------------ *)
(** ** [init], beyond the claims *)

Section Initialisation.

Variable B : collaborators.

(** [VertexAIProvider.init] in full. *)
Lemma VertexAIProvider_init_cases (self : VertexAIProvider) :
  VertexAIProvider_init B self =
    if falsy (v_project self) then (Throw vertex_needs_project, self, [])
    else match vertex_getGenerativeModel B (template (v_project self))
                 (v_location self) (v_modelName self) with
         | Ok model =>
             (Ok tt,
              MkVertexAIProvider (v_modelName self) (v_project self)
                (v_location self) (Some model),
              [])
         | Throw e => (Throw e, self, [])
         end.
Proof.
  unfold VertexAIProvider_init. run_monad.
  destruct (falsy (v_project self)); [reflexivity|].
  destruct (vertex_getGenerativeModel B (template (v_project self))
              (v_location self) (v_modelName self)); reflexivity.
Qed.

(** [GoogleAIStudioProvider.init] in full. *)
Lemma GoogleAIStudioProvider_init_cases (self : GoogleAIStudioProvider) :
  GoogleAIStudioProvider_init B self =
    if falsy (Some (s_secretName self)) then (Throw secret_name_required, self, [])
    else if falsy (s_project self)
            && negb (startsWith (s_secretName self) (lit "projects/"))
    then (Throw secret_needs_project, self, [])
    else match accessSecretVersion B (secretVersion self) with
         | Ok payload =>
             (Ok tt,
              MkGoogleAIStudioProvider (s_modelName self) (s_project self)
                (s_secretName self)
                (Some (StudioModel (trim payload) (s_modelName self))),
              [SecretAccess (secretVersion self)])
         | Throw e => (Throw e, self, [SecretAccess (secretVersion self)])
         end.
Proof.
  unfold GoogleAIStudioProvider_init. run_monad.
  destruct (falsy (Some (s_secretName self))); [reflexivity|].
  destruct (falsy (s_project self)
            && negb (startsWith (s_secretName self) (lit "projects/")));
    [reflexivity|].
  destruct (accessSecretVersion B (secretVersion self)); reflexivity.
Qed.

(** [provider.init()] on either class. *)
Lemma init_cases (p : provider) :
  init (ModelProvider := provider_ModelProvider B) p =
    match p with
    | Vertex self => method Vertex (VertexAIProvider_init B) self
    | AIStudio self => method AIStudio (GoogleAIStudioProvider_init B) self
    end.
Proof. destruct p; reflexivity. Qed.

(** What [init] does to the object and to the world. *)
Lemma init_summary (p p' : provider) (r : result unit) (t : list event) :
  init (ModelProvider := provider_ModelProvider B) p = (r, p', t) ->
  constructed p' = constructed p
  /\ kind p' = kind p
  /\ (if is_ok r then initialised p' = true else p' = p)
  /\ generate_calls t = 0%nat
  /\ existsb is_listen t = false.
Proof.
  rewrite init_cases. destruct p as [self|self]; unfold method.
  - rewrite VertexAIProvider_init_cases.
    destruct (falsy (v_project self));
      [intros H; simplify_eq; repeat split; destruct self; reflexivity|].
    destruct (vertex_getGenerativeModel B (template (v_project self))
                (v_location self) (v_modelName self));
      intros H; simplify_eq; repeat split; destruct self; reflexivity.
  - rewrite GoogleAIStudioProvider_init_cases.
    destruct (falsy (Some (s_secretName self)));
      [intros H; simplify_eq; repeat split; destruct self; reflexivity|].
    destruct (falsy (s_project self)
              && negb (startsWith (s_secretName self) (lit "projects/")));
      [intros H; simplify_eq; repeat split; destruct self; reflexivity|].
    destruct (accessSecretVersion B (secretVersion self));
      intros H; simplify_eq; repeat split; destruct self; reflexivity.
Qed.

(** X3: [init] assigns to [this.model] and to nothing else: the fields the
    constructor stored and the class of the object are as before.  When
    it returns, [this.model] is set; when it throws, the object is
    untouched ([this.model] keeps its old value).  It never calls a model
    backend. *)
Theorem init_only_sets_model (p : provider) :
  let out := init (ModelProvider := provider_ModelProvider B) p in
  let p' := snd (fst out) in
  constructed p' = constructed p
  /\ kind p' = kind p
  /\ (if is_ok (fst (fst out)) then initialised p' = true else p' = p)
  /\ generate_calls (snd out) = 0%nat.
Proof.
  intros out p'. subst p'.
  destruct out as [[r q] t] eqn:Hout. subst out.
  destruct (init_summary _ _ _ _ Hout) as (H1 & H2 & H3 & H4 & _).
  repeat split; assumption.
Qed.

(** X4: Every name [init] asks the secret store for is a version path
    [projects/.../versions/latest]. *)
Theorem secret_requests_are_latest_versions
    (self : GoogleAIStudioProvider) (name : jsstring) :
  In (SecretAccess name) (snd (GoogleAIStudioProvider_init B self)) ->
  exists middle, name = lit "projects/" ++ middle ++ lit "/versions/latest".
Proof.
  rewrite GoogleAIStudioProvider_init_cases.
  destruct (falsy (Some (s_secretName self))); [intros []|].
  destruct (falsy (s_project self)
            && negb (startsWith (s_secretName self) (lit "projects/")));
    [intros []|].
  assert (Hshape : exists middle,
             secretVersion self = lit "projects/" ++ middle ++ lit "/versions/latest").
  { unfold secretVersion.
    destruct (startsWith (s_secretName self) (lit "projects/")) eqn:Hfull.
    - destruct (startsWith_split _ _ Hfull) as [rest ->].
      exists rest. rewrite <- app_assoc. reflexivity.
    - exists (template (s_project self) ++ lit "/secrets/" ++ s_secretName self).
      rewrite <- !app_assoc. reflexivity. }
  destruct (accessSecretVersion B (secretVersion self));
    cbn [snd In]; intros [H|[]]; simplify_eq; exact Hshape.
Qed.

(** X5: The API key handed to the AI Studio client is the secret's payload
    with the white space around it removed: after a successful [init] the
    key of [this.model] is [payload.trim()], it neither starts nor ends
    with white space, and the model name is the configured one. *)
Theorem api_key_is_trimmed_payload
    (self self' : GoogleAIStudioProvider) (t : list event) :
  GoogleAIStudioProvider_init B self = (Ok tt, self', t) ->
  exists payload,
    accessSecretVersion B (secretVersion self) = Ok payload
    /\ s_model self' = Some (StudioModel (trim payload) (s_modelName self))
    /\ trimStart (trim payload) = trim payload
    /\ trimEnd (trim payload) = trim payload.
Proof.
  rewrite GoogleAIStudioProvider_init_cases.
  destruct (falsy (Some (s_secretName self))); [discriminate|].
  destruct (falsy (s_project self)
            && negb (startsWith (s_secretName self) (lit "projects/")));
    [discriminate|].
  destruct (accessSecretVersion B (secretVersion self)) as [payload|e];
    [|discriminate].
  intros H. simplify_eq. exists payload.
  repeat split; [apply trimStart_trim | apply trimEnd_trim].
Qed.

End Initialisation.

(* ------------------------------------------------------------------ *)
(** ** Configuration and selection, beyond the claims *)

Lemma or_default_nonempty (a : option jsstring) (d : jsstring) :
  d <> [] -> or_default a d <> [].
Proof. intros Hd. destruct a as [[|c s]|]; simpl; congruence. Qed.

Lemma falsy_or_else (a b : option jsstring) :
  falsy (or_else a b) = falsy a && falsy b.
Proof. destruct a as [[|c s]|]; reflexivity. Qed.

(** X6: Whatever the environment holds, the configuration has a non-empty
    model name, region, provider kind, secret reference and CORS origin
    and a truthy port: an unset or empty variable gives way to its
    default.  Only the project has no default, and it is missing exactly
    when neither [GOOGLE_CLOUD_PROJECT] nor [GCP_PROJECT] holds a
    non-empty string. *)
Theorem config_defaults (env : gmap string jsstring) :
  let cfg := load_config env in
  modelName cfg <> []
  /\ location cfg <> []
  /\ modelProvider cfg <> []
  /\ googleAIStudioApiSecret cfg <> []
  /\ corsOrigin cfg <> []
  /\ truthy (port cfg) = true
  /\ falsy (project cfg)
     = falsy (env !! "GOOGLE_CLOUD_PROJECT"%string)
       && falsy (env !! "GCP_PROJECT"%string).
Proof.
  cbn zeta. unfold load_config; cbn [modelName location modelProvider
    googleAIStudioApiSecret corsOrigin port project].
  repeat split; try (apply or_default_nonempty; discriminate).
  - destruct (env !! "PORT"%string) as [[|c s]|]; reflexivity.
  - apply falsy_or_else.
Qed.

(** [createProvider] in full. *)
Lemma createProvider_cases (cfg : config) :
  createProvider cfg tt =
    if str_eq (modelProvider cfg) GOOGLE_VERTEXAI then
      (Ok (Vertex (new_VertexAIProvider (modelName cfg) (project cfg) (location cfg))),
       tt, [using_vertex cfg])
    else if str_eq (modelProvider cfg) GOOGLE_AI_STUDIO then
      (Ok (AIStudio (studio_of cfg)), tt, [using_studio cfg])
    else
      (Throw (Error (lit "Invalid model provider: " ++ modelProvider cfg)), tt, []).
Proof.
  unfold createProvider.
  destruct (str_eq (modelProvider cfg) GOOGLE_VERTEXAI); [reflexivity|].
  destruct (str_eq (modelProvider cfg) GOOGLE_AI_STUDIO); reflexivity.
Qed.

Lemma str_eq_true (a b : jsstring) : str_eq a b = true -> a = b.
Proof. unfold str_eq. apply bool_decide_eq_true. Qed.

Lemma str_eq_refl (a : jsstring) : str_eq a a = true.
Proof. unfold str_eq. apply bool_decide_eq_true. reflexivity. Qed.

(** X7: When [createProvider] returns, the object is of the class the
    configuration names, holds the configured model name and project,
    has not been initialised, and one console line is all that happened;
    when it throws, the provider kind is neither recognised value and
    nothing was printed.  The comparison is exact: no case folding, no
    trimming. *)
Theorem createProvider_builds_configured_kind (cfg : config) :
  match createProvider cfg tt with
  | (Ok p, _, t) =>
      kind p = modelProvider cfg
      /\ initialised p = false
      /\ constructed p = p
      /\ exists line, t = [ConsoleLog line]
  | (Throw e, _, t) =>
      modelProvider cfg <> GOOGLE_VERTEXAI
      /\ modelProvider cfg <> GOOGLE_AI_STUDIO
      /\ t = []
  end.
Proof.
  rewrite createProvider_cases.
  destruct (str_eq (modelProvider cfg) GOOGLE_VERTEXAI) eqn:Hv.
  - apply str_eq_true in Hv. repeat split; [cbn [kind]; congruence|].
    eexists. reflexivity.
  - destruct (str_eq (modelProvider cfg) GOOGLE_AI_STUDIO) eqn:Hs.
    + apply str_eq_true in Hs. repeat split; [cbn [kind]; congruence|].
      eexists. reflexivity.
    + repeat split; intros E; rewrite E, str_eq_refl in *; discriminate.
Qed.

(* ------------------------------------------------------------------ *)
(** ** Startup, beyond the claims *)

Section Startup.

Variable B : collaborators.
Variable cfg : config.

Lemma filter_absent {A} (f : A -> bool) (l : list A) :
  existsb f l = false -> List.filter f l = [].
Proof.
  induction l as [|x l IH]; [reflexivity|].
  cbn [existsb List.filter]. intros H. apply orb_false_iff in H as [H1 H2].
  rewrite H1. exact (IH H2).
Qed.

Lemma generate_calls_app (a b : list event) :
  generate_calls (a ++ b) = (generate_calls a + generate_calls b)%nat.
Proof. unfold generate_calls. rewrite List.filter_app, length_app. reflexivity. Qed.

(** X8: The Vertex variant with a project: the Vertex SDK and
    [app.listen] decide.  If the SDK refuses the model name, [init]
    throws, the error is printed and the process exits with status 1
    before [app.listen] is reached.  If the SDK hands out a handle and
    [app.listen] throws, the process dies on that error without
    listening.  If both succeed, the process listens with that handle.
    In no case is the secret store or a model backend contacted. *)
Theorem vertex_startup_outcome :
  modelProvider cfg = GOOGLE_VERTEXAI ->
  falsy (project cfg) = false ->
  let host := lit "0.0.0.0" in
  main B cfg =
    match vertex_getGenerativeModel B (template (project cfg)) (location cfg)
            (modelName cfg) with
    | Throw e => (Exited 1, [using_vertex cfg; ConsoleError init_failed e])
    | Ok model =>
        match listen B (port cfg) host with
        | Ok _ =>
            (Listening (port cfg) host
               (Vertex (MkVertexAIProvider (modelName cfg) (project cfg)
                          (location cfg) (Some model))),
             using_vertex cfg :: listening_events cfg)
        | Throw e => (Uncaught e, [using_vertex cfg; Listen (port cfg) host])
        end
    end.
Proof.
  intros Hk Hp host. subst host. unfold main.
  rewrite createProvider_cases, Hk, str_eq_refl.
  unfold startServer. rewrite init_cases. unfold method.
  rewrite VertexAIProvider_init_cases.
  cbn [new_VertexAIProvider v_project v_modelName v_location]. rewrite Hp.
  destruct (vertex_getGenerativeModel B (template (project cfg)) (location cfg)
              (modelName cfg)); [|reflexivity].
  destruct (listen B (port cfg) (lit "0.0.0.0")); reflexivity.
Qed.

(** X9: The AI Studio variant with a bare secret name (the default
    [gemini-api-key-secret] included) and no project: the process exits
    with status 1 and the secret store is never asked. *)
Theorem studio_startup_needs_project :
  modelProvider cfg = GOOGLE_AI_STUDIO ->
  googleAIStudioApiSecret cfg <> [] ->
  falsy (project cfg) = true ->
  startsWith (googleAIStudioApiSecret cfg) (lit "projects/") = false ->
  main B cfg =
    (Exited 1, [using_studio cfg; ConsoleError init_failed secret_needs_project]).
Proof.
  intros Hk Hn Hp Hbare. unfold main. rewrite createProvider_cases, Hk.
  change (str_eq GOOGLE_AI_STUDIO GOOGLE_VERTEXAI) with false.
  rewrite str_eq_refl. cbn match.
  unfold startServer. rewrite init_cases. unfold method.
  rewrite GoogleAIStudioProvider_init_cases.
  unfold studio_of. cbn [new_GoogleAIStudioProvider s_secretName s_project].
  destruct (googleAIStudioApiSecret cfg) as [|c n] eqn:Hs; [congruence|].
  cbn [falsy]. rewrite Hp, Hbare. reflexivity.
Qed.

(** X10: The AI Studio variant once the secret reference can be
    resolved (a project is configured, or the reference is fully
    qualified): the secret store, then [app.listen], decide.  If the
    store rejects, the process prints that error and exits with status 1
    before [app.listen] is reached.  If the store answers and
    [app.listen] throws, the process dies on that error without
    listening.  If both succeed, the process listens with a model handle
    whose key is the trimmed payload.  In every case the store was asked
    once, for [secretVersion]. *)
Theorem studio_startup_outcome :
  modelProvider cfg = GOOGLE_AI_STUDIO ->
  googleAIStudioApiSecret cfg <> [] ->
  falsy (project cfg)
    && negb (startsWith (googleAIStudioApiSecret cfg) (lit "projects/")) = false ->
  let asked := SecretAccess (secretVersion (studio_of cfg)) in
  let host := lit "0.0.0.0" in
  main B cfg =
    match accessSecretVersion B (secretVersion (studio_of cfg)) with
    | Throw e =>
        (Exited 1, [using_studio cfg; asked; ConsoleError init_failed e])
    | Ok payload =>
        match listen B (port cfg) host with
        | Ok _ =>
            (Listening (port cfg) host
               (AIStudio (MkGoogleAIStudioProvider (modelName cfg) (project cfg)
                            (googleAIStudioApiSecret cfg)
                            (Some (StudioModel (trim payload) (modelName cfg))))),
             using_studio cfg :: asked :: listening_events cfg)
        | Throw e =>
            (Uncaught e, [using_studio cfg; asked; Listen (port cfg) host])
        end
    end.
Proof.
  intros Hk Hn Hg asked host. subst asked host. unfold main.
  rewrite createProvider_cases, Hk.
  change (str_eq GOOGLE_AI_STUDIO GOOGLE_VERTEXAI) with false.
  rewrite str_eq_refl. cbn match.
  unfold startServer. rewrite init_cases. unfold method.
  rewrite GoogleAIStudioProvider_init_cases.
  assert (Hf : falsy (Some (s_secretName (studio_of cfg))) = false).
  { unfold studio_of. cbn [new_GoogleAIStudioProvider s_secretName].
    destruct (googleAIStudioApiSecret cfg); [congruence|reflexivity]. }
  rewrite Hf.
  replace (falsy (s_project (studio_of cfg))
           && negb (startsWith (s_secretName (studio_of cfg)) (lit "projects/")))
    with false by (symmetry; exact Hg).
  destruct (accessSecretVersion B (secretVersion (studio_of cfg))); [|reflexivity].
  destruct (listen B (port cfg) (lit "0.0.0.0")); reflexivity.
Qed.

(** The number of calls of [app.listen] in a trace. *)
Lemma listen_calls_app (a b : list event) :
  length (List.filter is_listen (a ++ b))
    = (length (List.filter is_listen a) + length (List.filter is_listen b))%nat.
Proof. rewrite List.filter_app, length_app. reflexivity. Qed.

(** The shapes [startServer] can end in. *)
Lemma startServer_summary (p0 : provider) (st : process) (t : list event) :
  startServer B cfg p0 = (st, t) ->
  generate_calls t = 0%nat
  /\ match st with
     | Listening on host p =>
         on = port cfg /\ host = lit "0.0.0.0"
         /\ initialised p = true /\ kind p = kind p0
         /\ constructed p = constructed p0
         /\ length (List.filter is_listen t) = 1%nat
         /\ exists before, t = before ++ listening_events cfg
                           /\ existsb is_listen before = false
     | Exited code => code = 1 /\ length (List.filter is_listen t) = 0%nat
     | Uncaught e =>
         listen B (port cfg) (lit "0.0.0.0") = Throw e
         /\ length (List.filter is_listen t) = 1%nat
     end.
Proof.
  unfold startServer.
  destruct (init p0) as [[[[]|e] p1] t1] eqn:Hi;
    destruct (init_summary B _ _ _ _ Hi) as (Hc & Hk & Hinit & Hg & Hl);
    cbn [is_ok] in Hinit.
  - destruct (listen B (port cfg) (lit "0.0.0.0")) as [[]|e] eqn:Hlisten;
      intros H; simplify_eq.
    + split; [rewrite generate_calls_app, Hg; reflexivity|].
      repeat split; try assumption.
      * rewrite listen_calls_app, (filter_absent _ _ Hl). reflexivity.
      * exists t1. split; [reflexivity|exact Hl].
    + split; [rewrite generate_calls_app, Hg; reflexivity|].
      split; [reflexivity|].
      rewrite listen_calls_app, (filter_absent _ _ Hl). reflexivity.
  - intros H; simplify_eq.
    split; [rewrite generate_calls_app, Hg; reflexivity|].
    split; [reflexivity|].
    rewrite listen_calls_app, (filter_absent _ _ Hl). reflexivity.
Qed.

(** The shapes [main] can end in. *)
Lemma main_summary (st : process) (t : list event) :
  main B cfg = (st, t) ->
  generate_calls t = 0%nat
  /\ match st with
     | Listening on host p =>
         on = port cfg /\ host = lit "0.0.0.0"
         /\ initialised p = true /\ kind p = modelProvider cfg
         /\ length (List.filter is_listen t) = 1%nat
         /\ exists before, t = before ++ listening_events cfg
                           /\ existsb is_listen before = false
     | Exited code => code = 1 /\ length (List.filter is_listen t) = 0%nat
     | Uncaught e =>
         (e = Error (lit "Invalid model provider: " ++ modelProvider cfg)
          /\ t = [])
         \/ (listen B (port cfg) (lit "0.0.0.0") = Throw e
             /\ length (List.filter is_listen t) = 1%nat)
     end.
Proof.
  unfold main. rewrite createProvider_cases.
  assert (Hstart : forall p0 line,
            kind p0 = modelProvider cfg ->
            match startServer B cfg p0 with
            | (st0, t') => (st0, [ConsoleLog line] ++ t')
            end = (st, t) ->
            generate_calls t = 0%nat
            /\ match st with
               | Listening on host p =>
                   on = port cfg /\ host = lit "0.0.0.0"
                   /\ initialised p = true /\ kind p = modelProvider cfg
                   /\ length (List.filter is_listen t) = 1%nat
                   /\ exists before, t = before ++ listening_events cfg
                                     /\ existsb is_listen before = false
               | Exited code => code = 1 /\ length (List.filter is_listen t) = 0%nat
               | Uncaught e =>
                   (e = Error (lit "Invalid model provider: " ++ modelProvider cfg)
                    /\ t = [])
                   \/ (listen B (port cfg) (lit "0.0.0.0") = Throw e
                       /\ length (List.filter is_listen t) = 1%nat)
               end).
  { intros p0 line Hk0.
    destruct (startServer B cfg p0) as [st0 t'] eqn:Hs.
    destruct (startServer_summary _ _ _ Hs) as (Hg & Hst).
    intros H. simplify_eq. split; [exact Hg|].
    destruct st as [e|code|on host p].
    - right. exact Hst.
    - exact Hst.
    - destruct Hst as (H1 & H2 & H3 & H4 & _ & H5 & before & -> & Hb).
      repeat split; try assumption; [congruence|].
      exists (ConsoleLog line :: before). split; [reflexivity|exact Hb]. }
  destruct (str_eq (modelProvider cfg) GOOGLE_VERTEXAI) eqn:Hv.
  - apply str_eq_true in Hv. apply Hstart. cbn [kind]. congruence.
  - destruct (str_eq (modelProvider cfg) GOOGLE_AI_STUDIO) eqn:Hs.
    + apply str_eq_true in Hs. apply Hstart. cbn [kind]. congruence.
    + intros H. simplify_eq. split; [reflexivity|]. left. split; reflexivity.
Qed.

(** X11: A listening process holds an initialised provider of the configured
    kind, on the configured port and on every interface; binding the port
    was the last thing startup did (after [init] returned, followed only
    by the console line), and startup called no model backend. *)
Theorem listening_means_initialised
    (on : value) (host : jsstring) (p : provider) (t : list event) :
  main B cfg = (Listening on host p, t) ->
  on = port cfg /\ host = lit "0.0.0.0"
  /\ initialised p = true /\ kind p = modelProvider cfg
  /\ generate_calls t = 0%nat
  /\ exists before, t = before ++ listening_events cfg
                    /\ existsb is_listen before = false.
Proof.
  intros H. destruct (main_summary _ _ H) as (Hg & H1 & H2 & H3 & H4 & _ & H5).
  repeat split; assumption.
Qed.

(** X12: [app.listen] is called at most once, and only after [init]
    returned.  A process that exited with status 1 never called it; a
    listening process called it exactly once; a process that died on an
    uncaught error either never called it (the error is
    [createProvider]'s) or called it once and died on the error it
    threw. *)
Theorem listen_called_once_after_init :
  let calls := length (List.filter is_listen (snd (main B cfg))) in
  match fst (main B cfg) with
  | Listening _ _ _ => calls = 1%nat
  | Exited _ => calls = 0%nat
  | Uncaught e =>
      (calls = 0%nat
       /\ e = Error (lit "Invalid model provider: " ++ modelProvider cfg))
      \/ (calls = 1%nat /\ listen B (port cfg) (lit "0.0.0.0") = Throw e)
  end.
Proof.
  intros calls. subst calls.
  destruct (main B cfg) as [st t] eqn:H.
  destruct (main_summary _ _ H) as (_ & Hst). cbn [fst snd].
  destruct st as [e|code|on host p].
  - destruct Hst as [[-> ->]|[Hl Hn]]; [left|right]; split;
      reflexivity || assumption.
  - exact (proj2 Hst).
  - destruct Hst as (_ & _ & _ & _ & Hn & _). exact Hn.
Qed.

End Startup.

(* ------------------------------------------------------------------ *)
(** ** The HTTP surface, beyond the claims *)

Section Serving.

Variable B : collaborators.
Variable cfg : config.

(** The POST handler in full. *)
Lemma post_cases (req : request) (p : provider) :
  route B cfg POST req p =
    match prop (req_body req) (lit "message") with
    | Throw e => (Ok (generation_error e), p, [caught e])
    | Ok userMessage =>
        match message_missing userMessage with
        | Throw e => (Ok (generation_error e), p, [caught e])
        | Ok true => (Ok message_required, p, [])
        | Ok false =>
            match generateContent (ModelProvider := provider_ModelProvider B)
                    userMessage p with
            | (Ok reply, _, t) => (Ok (reply_ok cfg reply (req_body req)), p, t)
            | (Throw e, _, t) => (Ok (generation_error e), p, t ++ [caught e])
            end
        end
    end.
Proof.
  unfold route, post_handler. run_monad.
  destruct (prop (req_body req) (lit "message")) as [userMessage|e]; [|reflexivity].
  destruct (message_missing userMessage) as [[|]|e]; [reflexivity| |reflexivity].
  pose proof (generateContent_reads B userMessage p) as Hp.
  destruct (generateContent userMessage p) as [[[reply|e] p1] t1].
  - cbn [fst snd] in Hp. subst p1. cbn [app]. rewrite app_nil_r. reflexivity.
  - cbn [fst snd] in Hp. subst p1. reflexivity.
Qed.

Lemma generate_calls_le_one (m : value) (p : provider) :
  (generate_calls (snd (generateContent (ModelProvider := provider_ModelProvider B) m p))
   <= 1)%nat.
Proof.
  rewrite generateContent_trace, backend_call_count.
  destruct (initialised p); lia.
Qed.

(** What every answer of [route] looks like. *)
Lemma route_summary (v : verb) (req : request) (p : provider) :
  exists resp t,
    route B cfg v req p = (Ok resp, p, t)
    /\ (status resp = 200 \/ status resp = 400 \/ status resp = 500)
    /\ (generate_calls t <= 1)%nat
    /\ (v = GET -> generate_calls t = 0%nat).
Proof.
  destruct v.
  - eexists _, []. split; [reflexivity|]. split; [left; reflexivity|].
    split; [cbn; lia|reflexivity].
  - rewrite post_cases.
    destruct (prop (req_body req) (lit "message")) as [userMessage|e].
    2: { eexists _, _. split; [reflexivity|].
         split; [right; right; reflexivity|]. split; [cbn; lia|discriminate]. }
    destruct (message_missing userMessage) as [[|]|e].
    + eexists _, _. split; [reflexivity|].
      split; [right; left; reflexivity|]. split; [cbn; lia|discriminate].
    + pose proof (generate_calls_le_one userMessage p) as Hle.
      destruct (generateContent userMessage p) as [[[reply|e] p1] t1];
        cbn [snd] in Hle; eexists _, _; (split; [reflexivity|]).
      * split; [left; reflexivity|]. split; [exact Hle|discriminate].
      * split; [right; right; reflexivity|]. split; [|discriminate].
        unfold generate_calls in *. rewrite List.filter_app, length_app.
        cbn [List.filter caught is_generate length]. lia.
    + eexists _, _. split; [reflexivity|].
      split; [right; right; reflexivity|]. split; [cbn; lia|discriminate].
Qed.

(** X13: Nothing escapes a handler.  Whatever the verb, the body, the state of
    the provider object and the behaviour of the backends, [route] returns
    normally with status 200, 400 or 500, leaves the provider object as
    it was, and has called a model backend at most once. *)
Theorem route_always_answers (v : verb) (req : request) (p : provider) :
  exists resp t,
    route B cfg v req p = (Ok resp, p, t)
    /\ (status resp = 200 \/ status resp = 400 \/ status resp = 500)
    /\ (generate_calls t <= 1)%nat.
Proof.
  destruct (route_summary v req p) as (resp & t & H1 & H2 & H3 & _).
  exists resp, t. repeat split; assumption.
Qed.

(** X14: A valid message whose generation succeeds: the answer is 200 with
    [generateContent]'s result as [reply], the request body echoed and
    the [debug] object; the message went to [generateContent] as it was
    received (not trimmed), and nothing but that call happened. *)
Theorem valid_message_is_answered_with_reply
    (fields : list (jsstring * value)) (s : jsstring) (p p' : provider)
    (reply : value) (t : list event) :
  lookup_field (lit "message") fields = Some (VStr s) ->
  blank s = false ->
  generateContent (ModelProvider := provider_ModelProvider B) (VStr s) p
    = (Ok reply, p', t) ->
  route B cfg POST (Request (VObj fields)) p
    = (Ok (reply_ok cfg reply (VObj fields)), p, t)
  /\ t = backend_call p (VStr s).
Proof.
  intros Hm Hs Hg. split.
  - rewrite post_cases. cbn [req_body prop]. rewrite Hm.
    cbn [default from_option id]. rewrite message_missing_string, Hs, Hg.
    reflexivity.
  - pose proof (generateContent_trace B (VStr s) p) as Ht.
    rewrite Hg in Ht. exact Ht.
Qed.

(** X15: For a JSON object body the answer is 400 exactly when the message is
    absent, falsy ([null], [false], [0], the empty string) or a string of
    white space only; and then it is the fixed 400 body and no backend was
    called. *)
Theorem rejected_exactly_when_message_missing
    (fields : list (jsstring * value)) (p p' : provider)
    (resp : response) (t : list event) :
  route B cfg POST (Request (VObj fields)) p = (Ok resp, p', t) ->
  (status resp = 400 <->
   truthy (message_of fields) = false
   \/ exists s, message_of fields = VStr s /\ blank s = true)
  /\ (status resp = 400 -> resp = message_required /\ t = []).
Proof.
  rewrite post_cases. cbn [req_body prop]. fold (message_of fields).
  destruct (message_of fields) as [| |[|]|n|s|items|fs] eqn:Hv;
    try rewrite message_missing_string;
    unfold message_missing; cbn [truthy call_trim].
  1, 2, 4: intros H; simplify_eq; split;
    [split; [intros _; left; reflexivity|reflexivity]|intros _; split; reflexivity].
  - intros H; simplify_eq; split; [|discriminate].
    split; [discriminate|]. intros [H|(s & H & _)]; discriminate.
  - destruct (n =? 0) eqn:Hn; cbn [negb]; intros H; simplify_eq.
    + split; [split; [intros _; left; reflexivity|reflexivity]|].
      intros _; split; reflexivity.
    + split; [|discriminate].
      split; [discriminate|]. intros [H|(s & H & _)]; discriminate.
  - destruct (blank s) eqn:Hb.
    + intros H; simplify_eq.
      split; [split; [intros _; right; exists s; split; [reflexivity|exact Hb]
                     |reflexivity]|].
      intros _; split; reflexivity.
    + assert (Hts : truthy (VStr s) = true).
      { destruct s; [discriminate|reflexivity]. }
      destruct (generateContent (VStr s) p) as [[[reply|e] p1] t1];
        intros H; simplify_eq; (split; [|discriminate]);
        (split; [discriminate|]);
        intros [H|(s' & H & Hb')];
        first [cbn [truthy] in Hts; congruence | injection H as <-; congruence].
  - intros H; simplify_eq; split; [|discriminate].
    split; [discriminate|]. intros [H|(s & H & _)]; discriminate.
  - intros H; simplify_eq; split; [|discriminate].
    split; [discriminate|]. intros [H|(s & H & _)]; discriminate.
Qed.

End Serving.

(* ------------------------------------------------------------------ *)
(** ** The server over its lifetime *)

Section Lifetime.

Variable B : collaborators.
Variable cfg : config.

(** X16: Every request of a sequence is answered: [serve] gives one answer
    per request, none of them an escaped exception, ends with the provider
    object it started with, and calls a model backend at most once per
    request. *)
Theorem serve_answers_every_request (reqs : list (verb * request)) (p : provider) :
  exists rs t,
    serve B cfg reqs p = (rs, p, t)
    /\ length rs = length reqs
    /\ forallb is_ok rs = true
    /\ (generate_calls t <= length reqs)%nat.
Proof.
  induction reqs as [|[v req] rest (rs & t & Hs & Hlen & Hok & Hcalls)].
  - exists [], []. repeat split. cbn. lia.
  - destruct (route_summary B cfg v req p) as (resp & t1 & Hr & _ & Hle & _).
    exists (Ok resp :: rs), (t1 ++ t). cbn [serve]. rewrite Hr, Hs.
    split; [reflexivity|]. split; [cbn [length]; congruence|].
    split; [exact Hok|].
    rewrite generate_calls_app. cbn [length]. lia.
Qed.

(** X17: Requests do not influence one another: serving two batches in a row
    gives exactly the answers, and makes exactly the calls, that serving
    each batch on its own gives. *)
Theorem serve_batches_are_independent (a b : list (verb * request)) (p : provider) :
  serve B cfg (a ++ b) p =
    match serve B cfg a p, serve B cfg b p with
    | (ra, _, ta), (rb, _, tb) => (ra ++ rb, p, ta ++ tb)
    end.
Proof.
  induction a as [|[v req] a IH].
  - cbn [app serve]. destruct (serve B cfg b p) as [[rb pb] tb] eqn:Hb.
    pose proof (route_reads B cfg) as Hro.
    assert (Hp : pb = p).
    { clear -Hb Hro. revert rb pb tb Hb.
      induction b as [|[v req] b IH]; intros rb pb tb Hb.
      - cbn [serve] in Hb. congruence.
      - cbn [serve] in Hb. specialize (Hro v req p).
        destruct (route B cfg v req p) as [[r p1] t1]. cbn [fst snd] in Hro.
        subst p1. destruct (serve B cfg b p) as [[rs p2] t2] eqn:Hs.
        specialize (IH _ _ _ eq_refl). congruence. }
    subst pb. reflexivity.
  - cbn [app serve].
    destruct (route_summary B cfg v req p) as (resp & t1 & Hr & _).
    rewrite Hr, IH.
    destruct (serve B cfg a p) as [[ra pa] ta].
    destruct (serve B cfg b p) as [[rb pb] tb].
    rewrite app_assoc. reflexivity.
Qed.

(** X18: Once the process listens, a chat request with a valid message always
    reaches the model backend, exactly once: the answer is 200 or 500,
    never the error of an uninitialised provider's missing model. *)
Theorem started_server_forwards_once
    (on : value) (host : jsstring) (p : provider) (t : list event)
    (fields : list (jsstring * value)) (s : jsstring) :
  main B cfg = (Listening on host p, t) ->
  lookup_field (lit "message") fields = Some (VStr s) ->
  blank s = false ->
  exists resp t',
    route B cfg POST (Request (VObj fields)) p = (Ok resp, p, t')
    /\ generate_calls t' = 1%nat
    /\ (status resp = 200 \/ status resp = 500).
Proof.
  intros Hmain Hm Hs.
  destruct (main_summary B cfg _ _ Hmain) as (_ & _ & _ & Hinit & _).
  rewrite post_cases. cbn [req_body prop]. rewrite Hm.
  cbn [default from_option id]. rewrite message_missing_string, Hs.
  pose proof (generateContent_trace B (VStr s) p) as Ht.
  pose proof (backend_call_count p (VStr s)) as Hc. rewrite Hinit in Hc.
  destruct (generateContent (VStr s) p) as [[[reply|e] p1] t1];
    cbn [snd] in Ht; subst t1; eexists _, _; (split; [reflexivity|]).
  - split; [exact Hc|left; reflexivity].
  - split; [|right; reflexivity].
    rewrite generate_calls_app, Hc. reflexivity.
Qed.

End Lifetime.

(* ------------------------------------------------------------------ *)
(** ** The web component *)

Section Component.

Import WebComponent.

Variable b : browser.

(** Unfolds the element's monad. *)
Ltac run_dom :=
  unfold wbind, weval, perform, self, wret, wthrow, update, wtry in *;
  cbn beta iota in *.

(** The guard of [fetchChatResponse] never throws, and what it decides. *)
Lemma nothing_to_send_cases (d : value) :
  nothing_to_send d =
    Ok (match d with
        | VObj fields => negb (truthy (message_of fields))
        | VArr _ => true
        | _ => negb (truthy d)
        end).
Proof.
  unfold nothing_to_send, message_of.
  destruct d as [| |[|]|n|[|c s]|items|fields]; cbn; try reflexivity.
  destruct (n =? 0); reflexivity.
Qed.

(** What a call of [fetchChatResponse] amounts to. *)
Lemma fetchChatResponse_summary (c : component) :
  exists c' t,
    fetchChatResponse b c = (Ok tt, c', t)
    /\ _data c' = _data c /\ inputBox c' = inputBox c
    /\ include_output c' = include_output c
    /\ match responseElement c, responseElement c' with
       | Some el, Some el' => error_class el = true -> error_class el' = true
       | None, None => True
       | _, _ => False
       end
    /\ match nothing_to_send (_data c) with
       | Ok true => c' = c /\ t = []
       | _ => exists rest, t = Post (_data c) :: rest
                          /\ posts t = 1%nat /\ dispatches t = 1%nat
       end.
Proof.
  unfold fetchChatResponse. run_dom. rewrite nothing_to_send_cases.
  destruct c as [d io el ib]. cbn [_data inputBox include_output responseElement].
  set (skip := match d with
               | VObj fields => negb (truthy (message_of fields))
               | VArr _ => true
               | _ => negb (truthy d)
               end).
  destruct skip.
  { exists (Component d io el ib), []. repeat split. destruct el; cbn; auto. }
  destruct (fetch b d) as [[[|] st [data|e]]|e]; cbn [ok json http_status negb];
    try (destruct (reply_of b data) as [reply|e]);
    try (destruct (modelProvider_of data) as [kind|e]);
    destruct io; destruct el as [[html cls]|];
    unfold set_output; cbn [include_output responseElement error_class _data inputBox];
    try (destruct (renderMarkdown b reply) as [rendered|e]);
    cbn [include_output responseElement error_class _data inputBox];
    eexists _, _; (split; [reflexivity|]);
    cbn [_data inputBox include_output responseElement error_class];
    repeat split; try (intros; assumption); try (eexists; repeat split; reflexivity).
Qed.

Lemma truthy_trim (s : jsstring) : truthy (VStr (trim s)) = negb (blank s).
Proof.
  destruct (blank s) eqn:Hb.
  - rewrite (trim_blank s Hb). reflexivity.
  - pose proof (trim_not_blank s Hb) as Hn. cbn [truthy negb].
    destruct (trim s); [congruence|reflexivity].
Qed.

(** X19: The element sends a request only for data that carries a message:
    nothing happens (no request, no event, no change) when [data] is
    falsy, is an array, or is an object whose [message] is absent or
    falsy; in every other case the first thing it does is POST the data. *)
Theorem request_needs_a_message (c : component) :
  let out := fetchChatResponse b c in
  if match _data c with
     | VObj fields => truthy (message_of fields)
     | VArr _ => false
     | d => truthy d
     end
  then exists rest, snd out = Post (_data c) :: rest
  else out = (Ok tt, c, []).
Proof.
  intros out. subst out.
  destruct (fetchChatResponse_summary c) as (c' & t & -> & _ & _ & _ & _ & H).
  rewrite nothing_to_send_cases in H.
  destruct (_data c) as [| |[|]|n|[|ch s]|items|fields]; cbn [truthy negb] in *;
    try (destruct H as [-> ->]; reflexivity);
    try (destruct H as (rest & -> & _); exists rest; reflexivity).
  - destruct (n =? 0); cbn [negb] in *.
    + destruct H as [-> ->]; reflexivity.
    + destruct H as (rest & -> & _); exists rest; reflexivity.
  - destruct (truthy (message_of fields)); cbn [negb] in *.
    + destruct H as (rest & -> & _); exists rest; reflexivity.
    + destruct H as [-> ->]; reflexivity.
Qed.

(** X20: [fetchChatResponse] never throws, sends at most one request, and
    dispatches exactly one event ([message] or [error]) for a request it
    sent and none otherwise; it changes neither the data, nor the text
    area, nor the attribute. *)
Theorem one_event_per_request (c : component) :
  exists c' t,
    fetchChatResponse b c = (Ok tt, c', t)
    /\ _data c' = _data c /\ inputBox c' = inputBox c
    /\ include_output c' = include_output c
    /\ (posts t <= 1)%nat
    /\ dispatches t = posts t.
Proof.
  destruct (fetchChatResponse_summary c) as (c' & t & Hf & H1 & H2 & H3 & _ & H).
  exists c', t. repeat split; try assumption.
  - destruct (nothing_to_send (_data c)) as [[|]|e].
    + destruct H as [_ ->]. cbn. lia.
    + destruct H as (rest & _ & -> & _). lia.
    + destruct H as (rest & _ & -> & _). lia.
  - destruct (nothing_to_send (_data c)) as [[|]|e].
    + destruct H as [_ ->]. reflexivity.
    + destruct H as (rest & _ & -> & ->). reflexivity.
    + destruct H as (rest & _ & -> & ->). reflexivity.
Qed.

(** X21: The error mark is never cleared: once the output element carries the
    class [ai-chat-response-error], it still carries it after any later
    request, successful or not. *)
Theorem error_mark_is_never_cleared (c : component) (el : output) :
  responseElement c = Some el ->
  error_class el = true ->
  exists el',
    responseElement (snd (fst (fetchChatResponse b c))) = Some el'
    /\ error_class el' = true.
Proof.
  intros Hel Hcls.
  destruct (fetchChatResponse_summary c) as (c' & t & -> & _ & _ & _ & H & _).
  rewrite Hel in H. cbn [fst snd].
  destruct (responseElement c') as [el'|]; [|destruct H].
  exists el'. split; [reflexivity|exact (H Hcls)].
Qed.


(** X23: The buttons.  Clear empties the text area, stores
    [{ message: '' }] and sends nothing.  Submit does nothing at all when
    the text is blank; otherwise it stores and POSTs [{ message: text }]
    with the text as typed (not trimmed), and one event follows. *)
Theorem buttons_send_only_text (c : component) :
  on_clear b c =
    (Ok tt,
     Component (VObj [(lit "message", VStr [])]) (include_output c)
       (responseElement c) [],
     [])
  /\ if blank (inputBox c) then on_submit b c = (Ok tt, c, [])
     else exists c' rest,
       on_submit b c
         = (Ok tt, c', Post (VObj [(lit "message", VStr (inputBox c))]) :: rest)
       /\ _data c' = VObj [(lit "message", VStr (inputBox c))]
       /\ dispatches rest = 1%nat.
Proof.
  split.
  - unfold on_clear, set_data. run_dom.
    destruct c as [d io el ib].
    cbn [_data include_output responseElement inputBox].
    set (c1 := Component (VObj [(lit "message", VStr [])]) io el []).
    destruct (fetchChatResponse_summary c1) as (c' & t & -> & _ & _ & _ & _ & H).
    rewrite nothing_to_send_cases in H. destruct H as [-> ->]. reflexivity.
  - unfold on_submit, set_data. run_dom. rewrite truthy_trim.
    destruct (blank (inputBox c)) eqn:Hb; cbn [negb]; [reflexivity|].
    destruct c as [d io el ib].
    cbn [_data include_output responseElement inputBox] in *.
    set (c1 := Component (VObj [(lit "message", VStr ib)]) io el ib).
    destruct (fetchChatResponse_summary c1) as (c' & t & -> & Hd & _ & _ & _ & H).
    rewrite nothing_to_send_cases in H.
    assert (Hm : negb (truthy (message_of [(lit "message", VStr ib)])) = false).
    { unfold message_of. cbn. destruct ib; [discriminate|reflexivity]. }
    subst c1. cbn [_data] in H, Hd. rewrite Hm in H.
    destruct H as (rest & -> & _ & Hdis).
    exists c', rest. split; [reflexivity|]. split; [exact Hd|].
    exact Hdis.
Qed.

End Component.

(** X24: The submit button and the service agree on what a message is: the
    element POSTs [{ message: text }] exactly when the POST handler
    would not answer it with 400.  For a blank text nothing is sent (and
    the handler would have answered 400 [Message is required]); for any
    other text the request is sent and the handler answers it with 200 or
    500, whatever the provider and the backends do. *)
Theorem submit_agrees_with_validation
    (b : WebComponent.browser) (c : WebComponent.component)
    (B : collaborators) (cfg : config) (p : provider) :
  let body := VObj [(lit "message", VStr (WebComponent.inputBox c))] in
  if blank (WebComponent.inputBox c)
  then snd (WebComponent.on_submit b c) = []
       /\ route B cfg POST (Request body) p = (Ok message_required, p, [])
  else (exists rest, snd (WebComponent.on_submit b c) = WebComponent.Post body :: rest)
       /\ exists resp t,
            route B cfg POST (Request body) p = (Ok resp, p, t)
            /\ (status resp = 200 \/ status resp = 500).
Proof.
  intros body. subst body.
  rewrite post_cases. cbn [req_body prop lookup_field].
  change (str_eq (lit "message") (lit "message")) with true.
  cbn [default from_option id]. rewrite message_missing_string.
  unfold WebComponent.on_submit, WebComponent.set_data.
  unfold WebComponent.wbind, WebComponent.self, WebComponent.wret,
    WebComponent.update.
  cbn beta iota. rewrite truthy_trim.
  destruct (blank (WebComponent.inputBox c)) eqn:Hb; cbn [negb].
  - split; reflexivity.
  - split.
    + destruct c as [d io el ib].
      cbn [WebComponent._data WebComponent.include_output
             WebComponent.responseElement WebComponent.inputBox] in *.
      set (c1 := WebComponent.Component (VObj [(lit "message", VStr ib)]) io el ib).
      destruct (fetchChatResponse_summary b c1) as (c' & t & -> & _ & _ & _ & _ & H).
      rewrite nothing_to_send_cases in H. subst c1. cbn [WebComponent._data] in H.
      assert (Hm : negb (truthy (message_of [(lit "message", VStr ib)])) = false).
      { unfold message_of. cbn. destruct ib; [discriminate|reflexivity]. }
      rewrite Hm in H. destruct H as (rest & -> & _). exists rest. reflexivity.
    + destruct (generateContent (VStr (WebComponent.inputBox c)) p)
        as [[[reply|e] p1] t1]; eexists _, _; (split; [reflexivity|]).
      * left; reflexivity.
      * right; reflexivity.
Qed.

(* ------------------------------------------------------------------ *)
(** ** The further statements at concrete inputs *)

Lemma generate_before_init_throws_witness :
  generateContent (ModelProvider := provider_ModelProvider answering)
    (VStr (lit "hi"))
    (Vertex (new_VertexAIProvider (lit "gemini-2.0-flash-lite") (Some (lit "proj-1"))
               (lit "us-central1")))
  = (Throw null_model,
     Vertex (new_VertexAIProvider (lit "gemini-2.0-flash-lite") (Some (lit "proj-1"))
               (lit "us-central1")),
     []).
Proof. apply (generate_before_init_throws answering). reflexivity. Defined.

Lemma secret_requests_are_latest_versions_witness :
  exists middle,
    lit "projects/proj-1/secrets/my-secret/versions/latest"
      = lit "projects/" ++ middle ++ lit "/versions/latest".
Proof.
  apply (secret_requests_are_latest_versions answering
           (new_GoogleAIStudioProvider (lit "gemini-2.0-flash-lite")
              (Some (lit "proj-1")) (lit "my-secret"))).
  left. reflexivity.
Defined.

(** The store's payload is [  key-123 ] and the key is [key-123]. *)
Lemma api_key_is_trimmed_payload_witness :
  exists payload,
    accessSecretVersion answering
      (secretVersion (new_GoogleAIStudioProvider (lit "gemini-2.0-flash-lite")
                        (Some (lit "proj-1")) (lit "my-secret")))
      = Ok payload
    /\ s_model (MkGoogleAIStudioProvider (lit "gemini-2.0-flash-lite")
                  (Some (lit "proj-1")) (lit "my-secret") (Some sample_studio_model))
       = Some (StudioModel (trim payload) (lit "gemini-2.0-flash-lite"))
    /\ trimStart (trim payload) = trim payload
    /\ trimEnd (trim payload) = trim payload.
Proof.
  exact (api_key_is_trimmed_payload answering
           (new_GoogleAIStudioProvider (lit "gemini-2.0-flash-lite")
              (Some (lit "proj-1")) (lit "my-secret"))
           (MkGoogleAIStudioProvider (lit "gemini-2.0-flash-lite")
              (Some (lit "proj-1")) (lit "my-secret") (Some sample_studio_model))
           [SecretAccess (lit "projects/proj-1/secrets/my-secret/versions/latest")]
           eq_refl).
Defined.

(** The Vertex variant with a project: every collaborator answers; the
    SDK refuses the model name; [app.listen] throws. *)
Lemma vertex_startup_outcome_witness :
  bound (fst (main answering (load_config env_vertex))) = true
  /\ fst (main refusing_sdk (load_config env_vertex)) = Exited 1
  /\ fst (main unbindable (load_config env_vertex)) = Uncaught bad_port.
Proof.
  split; [|split].
  - rewrite (vertex_startup_outcome answering (load_config env_vertex)
               ltac:(vm_compute; reflexivity) ltac:(vm_compute; reflexivity)).
    vm_compute. reflexivity.
  - rewrite (vertex_startup_outcome refusing_sdk (load_config env_vertex)
               ltac:(vm_compute; reflexivity) ltac:(vm_compute; reflexivity)).
    vm_compute. reflexivity.
  - rewrite (vertex_startup_outcome unbindable (load_config env_vertex)
               ltac:(vm_compute; reflexivity) ltac:(vm_compute; reflexivity)).
    vm_compute. reflexivity.
Defined.

(** Nothing configured at all: the default provider, the default secret
    name, and no project. *)
Lemma studio_startup_needs_project_witness :
  fst (main answering (load_config env_empty)) = Exited 1.
Proof.
  rewrite (studio_startup_needs_project answering (load_config env_empty)
             ltac:(vm_compute; reflexivity) ltac:(vm_compute; discriminate)
             ltac:(vm_compute; reflexivity) ltac:(vm_compute; reflexivity)).
  reflexivity.
Defined.

(** The same environment with a store that answers, one that does not,
    and an [app.listen] that throws. *)
Lemma studio_startup_outcome_witness :
  bound (fst (main answering (load_config env_studio))) = true
  /\ fst (main locked_store (load_config env_studio)) = Exited 1
  /\ fst (main unbindable (load_config env_studio)) = Uncaught bad_port.
Proof.
  split; [|split].
  - rewrite (studio_startup_outcome answering (load_config env_studio)
               ltac:(vm_compute; reflexivity) ltac:(vm_compute; discriminate)
               ltac:(vm_compute; reflexivity)).
    vm_compute. reflexivity.
  - rewrite (studio_startup_outcome locked_store (load_config env_studio)
               ltac:(vm_compute; reflexivity) ltac:(vm_compute; discriminate)
               ltac:(vm_compute; reflexivity)).
    vm_compute. reflexivity.
  - rewrite (studio_startup_outcome unbindable (load_config env_studio)
               ltac:(vm_compute; reflexivity) ltac:(vm_compute; discriminate)
               ltac:(vm_compute; reflexivity)).
    vm_compute. reflexivity.
Defined.

Lemma listening_means_initialised_witness :
  initialised sample_vertex = true
  /\ kind sample_vertex = modelProvider (load_config env_vertex).
Proof.
  destruct (listening_means_initialised answering (load_config env_vertex)
              (VNum 8080) (lit "0.0.0.0") sample_vertex
              (using_vertex (load_config env_vertex)
               :: listening_events (load_config env_vertex))
              ltac:(vm_compute; reflexivity))
    as (_ & _ & H1 & H2 & _).
  split; assumption.
Defined.

Lemma valid_message_is_answered_with_reply_witness :
  route answering sample_config POST (Request (VObj hi_fields)) sample_vertex
    = (Ok (reply_ok sample_config (VStr (lit "Hello")) (VObj hi_fields)),
       sample_vertex, [hi_call]).
Proof.
  exact (proj1 (valid_message_is_answered_with_reply answering sample_config hi_fields
                  (lit "hi") sample_vertex sample_vertex (VStr (lit "Hello"))
                  [hi_call] eq_refl eq_refl eq_refl)).
Defined.

(** [POST / {}]. *)
Lemma rejected_exactly_when_message_missing_witness :
  truthy (message_of []) = false
  \/ exists s, message_of [] = VStr s /\ blank s = true.
Proof.
  apply (proj1 (proj1 (rejected_exactly_when_message_missing answering sample_config
                         [] sample_vertex sample_vertex message_required []
                         eq_refl))).
  reflexivity.
Defined.

Lemma started_server_forwards_once_witness :
  exists resp t',
    route answering (load_config env_vertex) POST (Request (VObj hi_fields))
      sample_vertex
      = (Ok resp, sample_vertex, t')
    /\ generate_calls t' = 1%nat
    /\ (status resp = 200 \/ status resp = 500).
Proof.
  exact (started_server_forwards_once answering (load_config env_vertex)
           (VNum 8080) (lit "0.0.0.0") sample_vertex
           (using_vertex (load_config env_vertex)
            :: listening_events (load_config env_vertex))
           hi_fields (lit "hi")
           ltac:(vm_compute; reflexivity) eq_refl eq_refl).
Defined.

(** A success after a failure leaves the error class in place. *)
Lemma error_mark_is_never_cleared_witness :
  exists el',
    WebComponent.responseElement
      (snd (fst (WebComponent.fetchChatResponse WebComponent.replying
                   WebComponent.failed_once)))
      = Some el'
    /\ WebComponent.error_class el' = true.
Proof.
  exact (error_mark_is_never_cleared WebComponent.replying WebComponent.failed_once
           (WebComponent.Output (lit "Failed to fetch response.") true)
           eq_refl eq_refl).
Defined.

